(** * Suspicious login detector: the risk engine and its properties

    A shallow embedding of the in-memory [SuspiciousLoginDetector]
    (core/detector), of the time helpers (utils/timeAnalysis), of the
    travel-speed helper (utils/geoLocation) and of the default configuration
    (utils/config), followed by the properties of the engine.

    Conventions of the embedding.
    - A JavaScript [number] is an exact rational extended with [Infinity],
      [-Infinity] and [NaN]: the arithmetic follows IEEE 754 on the special
      values and is exact on the finite ones (no rounding error, one zero).
    - A [Date] is its time value, an integer number of milliseconds.
    - The detector object is a record; a method that mutates the profile
      returns the new profile next to its result. *)

From Stdlib Require Import ZArith QArith Qround Lia Lqa.
From stdpp Require Import base option list sorting gmap strings.

Local Open Scope Z_scope.

(** ** Numbers *)

Inductive number : Type :=
| Fin (q : Q)
| PInf
| NInf
| NaN.

Definition is_zero (q : Q) : bool := Qeq_bool q 0.

Definition num_neg (x : number) : number :=
  match x with
  | Fin q => Fin (- q)
  | PInf => NInf
  | NInf => PInf
  | NaN => NaN
  end.

Definition num_add (x y : number) : number :=
  match x, y with
  | NaN, _ | _, NaN => NaN
  | Fin a, Fin b => Fin (a + b)
  | PInf, NInf | NInf, PInf => NaN
  | PInf, _ | _, PInf => PInf
  | NInf, _ | _, NInf => NInf
  end.

Definition num_sub (x y : number) : number := num_add x (num_neg y).

(** Sign of a number: [Gt] positive, [Lt] negative, [Eq] zero. *)
Definition num_sign (x : number) : comparison :=
  match x with
  | Fin q => (q ?= 0)%Q
  | PInf => Gt
  | NInf => Lt
  | NaN => Eq
  end.

Definition sign_mul (a b : comparison) : comparison :=
  match a with
  | Eq => Eq
  | Gt => b
  | Lt => CompOpp b
  end.

(** The infinity of a given sign; a zero sign stands for [0 * Infinity] or
    [0 / 0], which are [NaN]. *)
Definition inf_of_sign (c : comparison) : number :=
  match c with
  | Gt => PInf
  | Lt => NInf
  | Eq => NaN
  end.

Definition num_mul (x y : number) : number :=
  match x, y with
  | NaN, _ | _, NaN => NaN
  | Fin a, Fin b => Fin (a * b)
  | _, _ => inf_of_sign (sign_mul (num_sign x) (num_sign y))
  end.

Definition num_div (x y : number) : number :=
  match x, y with
  | NaN, _ | _, NaN => NaN
  | Fin a, Fin b =>
      if is_zero b then inf_of_sign (a ?= 0)%Q else Fin (a / b)
  | Fin _, _ => Fin 0
  | _, Fin b =>
      match (b ?= 0)%Q with
      | Lt => num_neg x
      | _ => x
      end
  | _, _ => NaN
  end.

(** Three-way comparison; [None] when an operand is [NaN]. *)
Definition num_cmp (x y : number) : option comparison :=
  match x, y with
  | NaN, _ | _, NaN => None
  | Fin a, Fin b => Some (a ?= b)%Q
  | PInf, PInf | NInf, NInf => Some Eq
  | PInf, _ | _, NInf => Some Gt
  | NInf, _ | _, PInf => Some Lt
  end.

(** [x > y] and [x >= y] of JavaScript. *)
Definition num_gt (x y : number) : bool :=
  match num_cmp x y with
  | Some Gt => true
  | _ => false
  end.

Definition num_ge (x y : number) : bool :=
  match num_cmp x y with
  | Some Gt | Some Eq => true
  | _ => false
  end.

Definition num_le (x y : number) : bool := num_ge y x.

(** [Math.min] of two arguments. *)
Definition Math_min (x y : number) : number :=
  match num_cmp x y with
  | None => NaN
  | Some Gt => y
  | Some _ => x
  end.

(** [Math.round]: the nearest integer, a tie going up. *)
Definition Math_round (x : number) : number :=
  match x with
  | Fin q => Fin (inject_Z (Qfloor (q + (1 # 2))%Q))
  | _ => x
  end.

Definition of_Z (z : Z) : number := Fin (inject_Z z).
Definition of_nat (n : nat) : number := of_Z (Z.of_nat n).

(** Numbers denoting the same value. *)
Definition num_eq (x y : number) : Prop :=
  match x, y with
  | Fin a, Fin b => (a == b)%Q
  | PInf, PInf | NInf, NInf | NaN, NaN => True
  | _, _ => False
  end.

Declare Scope num_scope.
Delimit Scope num_scope with num.
Bind Scope num_scope with number.
Infix "+" := num_add : num_scope.
Infix "-" := num_sub : num_scope.
Infix "*" := num_mul : num_scope.
Infix "/" := num_div : num_scope.
Infix ">?" := num_gt (at level 70) : num_scope.
Infix ">=?" := num_ge (at level 70) : num_scope.

(** ** Data model (types) *)

Record LoginAttempt : Type := {
  userId : string;
  timestamp : Z;
  ipAddress : string;
  success : bool;
  userAgent : option string;
  sessionId : option string
}.

Record GeoLocation : Type := {
  country : string;
  region : string;
  city : string;
  latitude : Q;
  longitude : Q
}.

Record RiskFactors : Type := {
  locationChange : number;
  impossibleTravel : number;
  bruteForce : number;
  unusualTime : number
}.

(** The four literals of [riskLevel]. *)
Inductive RiskLevel : Type := low | medium | high | critical.

(** The lines of [details] are template strings; a line is kept as its
    template and the values spliced into it. *)
Inductive Detail : Type :=
| LoginFrom (cityName countryName : string)
| NewLocationDetected (risk : number)
| ImpossibleTravelDetected (risk : number)
| PreviousLoginFrom (cityName countryName : string)
| FailedLoginAttempts (count : nat) (windowMinutes : Q) (risk : number)
| LoginAtUnusualTime (risk : number).

Record RiskAssessment : Type := {
  assessment_userId : string;
  assessment_timestamp : Z;
  overallRisk : number;
  riskLevel : RiskLevel;
  factors : RiskFactors;
  recommendations : list string;
  details : list Detail
}.

Record UserProfile : Type := {
  profile_userId : string;
  loginHistory : list LoginAttempt;
  typicalLocations : list GeoLocation;
  typicalLoginHours : list Z;
  lastSuccessfulLogin : option LoginAttempt;
  failedAttempts : list LoginAttempt
}.

Module riskThresholds.
Record t : Type := {
  low : Q;
  medium : Q;
  high : Q;
  critical : Q
}.
End riskThresholds.

Record DetectorConfig : Type := {
  maxTravelSpeed : Q;
  bruteForceWindow : Q;
  bruteForceThreshold : Q;
  locationChangeThreshold : Q;
  riskThresholds : riskThresholds.t
}.

(** [Partial<DetectorConfig>]: every field may be absent. *)
Record PartialDetectorConfig : Type := {
  opt_maxTravelSpeed : option Q;
  opt_bruteForceWindow : option Q;
  opt_bruteForceThreshold : option Q;
  opt_locationChangeThreshold : option Q;
  opt_riskThresholds : option riskThresholds.t
}.

(** ** utils/config *)

Definition defaultConfig : DetectorConfig := {|
  maxTravelSpeed := 900;
  bruteForceWindow := 30;
  bruteForceThreshold := 5;
  locationChangeThreshold := 100;
  riskThresholds := {|
    riskThresholds.low := 30;
    riskThresholds.medium := 50;
    riskThresholds.high := 70;
    riskThresholds.critical := 85
  |}
|}.

(** [{ ...defaultConfig, ...config }]: a field of [config] that is present
    replaces the default one, [riskThresholds] as a whole. *)
Definition spread_config (base : DetectorConfig) (c : PartialDetectorConfig)
  : DetectorConfig := {|
  maxTravelSpeed := default (maxTravelSpeed base) (opt_maxTravelSpeed c);
  bruteForceWindow := default (bruteForceWindow base) (opt_bruteForceWindow c);
  bruteForceThreshold :=
    default (bruteForceThreshold base) (opt_bruteForceThreshold c);
  locationChangeThreshold :=
    default (locationChangeThreshold base) (opt_locationChangeThreshold c);
  riskThresholds := default (riskThresholds base) (opt_riskThresholds c)
|}.

(** ** utils/timeAnalysis, on time values in milliseconds

    The three functions of date-fns 2.30 that the module imports:
    [differenceInHours] and [differenceInMinutes] return the number of full
    hours (minutes) between two dates, the quotient of the millisecond
    difference rounded towards zero; [getHours] is [Date.prototype.getHours],
    the hour of the local time. *)

Definition differenceInMilliseconds (dateLeft dateRight : Z) : Z :=
  dateLeft - dateRight.

Definition differenceInHours (dateLeft dateRight : Z) : Z :=
  Z.quot (differenceInMilliseconds dateLeft dateRight) 3600000.

Definition differenceInMinutes (dateLeft dateRight : Z) : Z :=
  Z.quot (differenceInMilliseconds dateLeft dateRight) 60000.

Definition getTimeDifferenceInHours (date1 date2 : Z) : Z :=
  Z.abs (differenceInHours date1 date2).

Definition getTimeDifferenceInMinutes (date1 date2 : Z) : Z :=
  Z.abs (differenceInMinutes date1 date2).

(** [attempts.filter(...)] of [getFailedAttemptsInWindow]. *)
Definition getFailedAttemptsInWindow
    (attempts : list LoginAttempt) (currentTime : Z) (windowMinutes : Q)
  : list LoginAttempt :=
  List.filter
    (fun attempt =>
       if success attempt then false
       else
         let timeDiff :=
           getTimeDifferenceInMinutes (timestamp attempt) currentTime in
         num_le (of_Z timeDiff) (Fin windowMinutes))
    attempts.

(** A record of the geoip-lite database, as [geoip.lookup] returns it; an
    absent [city] is the empty string. *)
Record GeoipRecord : Type := {
  geo_country : string;
  geo_region : string;
  geo_city : string;
  geo_ll : Q * Q
}.

Section Engine.

(** The environment of the engine: the geoip-lite database, the
    great-circle distance of [calculateDistance] (the Haversine formula with
    an Earth radius of 6371 km, evaluated with [Math.sin], [Math.cos] and
    [Math.atan2]: its value in kilometres is taken as given), and the local
    time of the process ([LocalTime] of ECMAScript: the time value shifted
    by the offset of the time zone). *)
Variable geoip_lookup : string -> option GeoipRecord.
Variable calculateDistance : Q -> Q -> Q -> Q -> Q.
Variable LocalTime : Z -> Z.

(** *** utils/geoLocation *)

Definition getLocationFromIP (ip : string) : option GeoLocation :=
  match geoip_lookup ip with
  | None => None
  | Some geo =>
      Some {|
        country := geo_country geo;
        region := geo_region geo;
        city := if String.eqb (geo_city geo) "" then "Unknown"
                else geo_city geo;
        latitude := fst (geo_ll geo);
        longitude := snd (geo_ll geo)
      |}
  end.

Definition calculateTravelSpeed
    (location1 location2 : GeoLocation) (timeInHours : number) : number :=
  match num_cmp timeInHours (Fin 0) with
  | Some Eq => PInf
  | _ =>
      let distance :=
        calculateDistance (latitude location1) (longitude location1)
                          (latitude location2) (longitude location2) in
      (Fin distance / timeInHours)%num
  end.

(** *** utils/timeAnalysis, the hour of the day *)

Definition getHours (date : Z) : Z := (LocalTime date / 3600000) mod 24.

Definition getHourOfDay (date : Z) : Z := getHours date.

(** [Object.keys] of an object whose keys are array indices: the keys in
    ascending numeric order. *)
Definition Object_keys (hourCounts : gmap Z nat) : list Z :=
  merge_sort Z.le (map_to_list hourCounts).*1.

(** The [forEach] loop that counts the logins per hour, from the counts
    so far. *)
Definition countLoginsPerHour
    (logins : list LoginAttempt) (hourCounts : gmap Z nat) : gmap Z nat :=
  fold_left
    (fun counts login =>
       let hour := getHourOfDay (timestamp login) in
       <[hour := (default 0%nat (counts !! hour) + 1)%nat]> counts)
    logins hourCounts.

Definition calculateTypicalLoginHours (logins : list LoginAttempt)
  : list Z :=
  let hourCounts : gmap Z nat := countLoginsPerHour logins ∅ in
  let totalLogins := length logins in
  let threshold := (of_nat totalLogins * Fin (1 # 10))%num in
  let typicalHours :=
    List.filter
      (fun hour =>
         match hourCounts !! hour with
         | Some count => (of_nat count >=? threshold)%num
         | None => false
         end)
      (seqZ 0 24) in
  if (length typicalHours =? 0)%nat then Object_keys hourCounts
  else typicalHours.

Definition isUnusualLoginTime (loginTime : Z) (typicalHours : list Z)
  : bool :=
  if (length typicalHours =? 0)%nat then false
  else negb (existsb (Z.eqb (getHourOfDay loginTime)) typicalHours).

(** *** core/detector *)

Record Detector : Type := {
  config : DetectorConfig;
  userProfiles : gmap string UserProfile
}.

Definition constructor (c : option PartialDetectorConfig) : Detector := {|
  config := match c with
            | Some c => spread_config defaultConfig c
            | None => defaultConfig
            end;
  userProfiles := ∅
|}.

Definition emptyProfile (uid : string) : UserProfile := {|
  profile_userId := uid;
  loginHistory := [];
  typicalLocations := [];
  typicalLoginHours := [];
  lastSuccessfulLogin := None;
  failedAttempts := []
|}.

(** Get or create: the profile and the detector, in which a new profile has
    been registered. *)
Definition getUserProfile (this : Detector) (uid : string)
  : UserProfile * Detector :=
  match userProfiles this !! uid with
  | Some profile => (profile, this)
  | None =>
      (emptyProfile uid,
       {| config := config this;
          userProfiles := <[uid := emptyProfile uid]> (userProfiles this) |})
  end.

Definition push_typicalLocation (loc : GeoLocation) (profile : UserProfile)
  : UserProfile := {|
  profile_userId := profile_userId profile;
  loginHistory := loginHistory profile;
  typicalLocations := typicalLocations profile ++ [loc];
  typicalLoginHours := typicalLoginHours profile;
  lastSuccessfulLogin := lastSuccessfulLogin profile;
  failedAttempts := failedAttempts profile
|}.

Definition set_typicalLoginHours (hours : list Z) (profile : UserProfile)
  : UserProfile := {|
  profile_userId := profile_userId profile;
  loginHistory := loginHistory profile;
  typicalLocations := typicalLocations profile;
  typicalLoginHours := hours;
  lastSuccessfulLogin := lastSuccessfulLogin profile;
  failedAttempts := failedAttempts profile
|}.

(** The update of the profile at the head of [analyzeLogin]. *)
Definition recordAttempt (attempt : LoginAttempt) (profile : UserProfile)
  : UserProfile := {|
  profile_userId := profile_userId profile;
  loginHistory := loginHistory profile ++ [attempt];
  typicalLocations := typicalLocations profile;
  typicalLoginHours := typicalLoginHours profile;
  lastSuccessfulLogin :=
    if success attempt then Some attempt else lastSuccessfulLogin profile;
  failedAttempts :=
    if success attempt then failedAttempts profile
    else failedAttempts profile ++ [attempt]
|}.

Definition sameCityCountry (a b : GeoLocation) : bool :=
  String.eqb (country a) (country b) && String.eqb (city a) (city b).

Definition calculateLocationChangeRisk
    (attempt : LoginAttempt) (profile : UserProfile)
  : number * UserProfile :=
  match getLocationFromIP (ipAddress attempt) with
  | None => (Fin 0, profile)
  | Some currentLocation =>
      if (length (loginHistory profile) =? 0)%nat then
        (Fin 0, push_typicalLocation currentLocation profile)
      else
        let isTypicalLocation :=
          existsb (fun loc => sameCityCountry loc currentLocation)
                  (typicalLocations profile) in
        if isTypicalLocation then (Fin 0, profile)
        else (Fin 40, push_typicalLocation currentLocation profile)
  end.

Definition calculateImpossibleTravelRisk
    (this : Detector) (attempt : LoginAttempt) (profile : UserProfile)
  : number :=
  match lastSuccessfulLogin profile with
  | None => Fin 0
  | Some last =>
      match getLocationFromIP (ipAddress attempt),
            getLocationFromIP (ipAddress last) with
      | Some currentLocation, Some previousLocation =>
          if String.eqb (city currentLocation) (city previousLocation)
             && String.eqb (country currentLocation)
                           (country previousLocation)
          then Fin 0
          else
            let timeDiff :=
              getTimeDifferenceInHours (timestamp last)
                                       (timestamp attempt) in
            let requiredSpeed :=
              calculateTravelSpeed previousLocation currentLocation
                                   (of_Z timeDiff) in
            let maxSpeed := Fin (maxTravelSpeed (config this)) in
            if (requiredSpeed >? maxSpeed)%num then
              let speedRatio := (requiredSpeed / maxSpeed)%num in
              Math_min (Fin 100)
                       (Fin 60 + (speedRatio - Fin 1) * Fin 40)%num
            else if (requiredSpeed >? maxSpeed * Fin (7 # 10))%num then
              Fin 30
            else Fin 0
      | _, _ => Fin 0
      end
  end.

Definition calculateBruteForceRisk
    (this : Detector) (attempt : LoginAttempt) (profile : UserProfile)
  : number :=
  let recentFailures :=
    getFailedAttemptsInWindow (failedAttempts profile) (timestamp attempt)
                              (bruteForceWindow (config this)) in
  let failureCount := of_nat (length recentFailures) in
  let threshold := Fin (bruteForceThreshold (config this)) in
  if (failureCount >=? threshold)%num then
    let ratio := (failureCount / threshold)%num in
    Math_min (Fin 100) (Fin 70 + (ratio - Fin 1) * Fin 30)%num
  else if (failureCount >=? threshold * Fin (7 # 10))%num then Fin 40
  else Fin 0.

Definition calculateUnusualTimeRisk
    (attempt : LoginAttempt) (profile : UserProfile)
  : number * UserProfile :=
  let successfulLogins := List.filter success (loginHistory profile) in
  if (length successfulLogins <? 10)%nat then (Fin 0, profile)
  else
    let typicalHours := calculateTypicalLoginHours successfulLogins in
    let profile := set_typicalLoginHours typicalHours profile in
    if isUnusualLoginTime (timestamp attempt) typicalHours
    then (Fin 35, profile)
    else (Fin 0, profile).

(** The four calculators run in the order of the object literal; the two
    that write to the profile hand it on. *)
Definition calculateRiskFactors
    (this : Detector) (attempt : LoginAttempt) (profile : UserProfile)
  : RiskFactors * UserProfile :=
  let '(lc, profile) := calculateLocationChangeRisk attempt profile in
  let it := calculateImpossibleTravelRisk this attempt profile in
  let bf := calculateBruteForceRisk this attempt profile in
  let '(ut, profile) := calculateUnusualTimeRisk attempt profile in
  ({| locationChange := lc; impossibleTravel := it;
      bruteForce := bf; unusualTime := ut |}, profile).

Definition calculateOverallRisk (f : RiskFactors) : number :=
  let score :=
    (locationChange f * Fin (2 # 10)
     + impossibleTravel f * Fin (4 # 10)
     + bruteForce f * Fin (3 # 10)
     + unusualTime f * Fin (1 # 10))%num in
  Math_round score.

Definition determineRiskLevel (this : Detector) (score : number)
  : RiskLevel :=
  let thresholds := riskThresholds (config this) in
  if (score >=? Fin (riskThresholds.critical thresholds))%num then critical
  else if (score >=? Fin (riskThresholds.high thresholds))%num then high
  else if (score >=? Fin (riskThresholds.medium thresholds))%num then medium
  else low.

Definition generateRecommendations (f : RiskFactors) (level : RiskLevel)
  : list string :=
  let recommendations : list string := [] in
  let recommendations :=
    match level with
    | critical | high =>
        recommendations
          ++ ["Block login attempt and require additional verification"]
    | _ => recommendations
    end in
  let recommendations :=
    if (impossibleTravel f >? Fin 50)%num then
      recommendations
        ++ ["Send alert for impossible travel detection";
            "Require multi-factor authentication"]
    else recommendations in
  let recommendations :=
    if (bruteForce f >? Fin 50)%num then
      recommendations
        ++ ["Implement temporary account lockout";
            "Alert user of potential brute force attack"]
    else recommendations in
  let recommendations :=
    if (locationChange f >? Fin 30)%num then
      recommendations
        ++ ["Send notification to user about new location login"]
    else recommendations in
  let recommendations :=
    if (unusualTime f >? Fin 30)%num then
      recommendations
        ++ ["Consider requiring additional verification for unusual login times"]
    else recommendations in
  let recommendations :=
    match level with
    | medium =>
        recommendations
          ++ ["Monitor this user for additional suspicious activity"]
    | _ => recommendations
    end in
  if (length recommendations =? 0)%nat then
    ["Login appears legitimate - allow access"]
  else recommendations.

Definition generateDetails
    (this : Detector) (attempt : LoginAttempt) (profile : UserProfile)
    (f : RiskFactors) : list Detail :=
  let details : list Detail := [] in
  let details :=
    match getLocationFromIP (ipAddress attempt) with
    | Some currentLocation =>
        details
          ++ [LoginFrom (city currentLocation) (country currentLocation)]
    | None => details
    end in
  let details :=
    if (locationChange f >? Fin 0)%num then
      details ++ [NewLocationDetected (locationChange f)]
    else details in
  let details :=
    if (impossibleTravel f >? Fin 0)%num then
      let details :=
        details ++ [ImpossibleTravelDetected (impossibleTravel f)] in
      match lastSuccessfulLogin profile with
      | Some last =>
          match getLocationFromIP (ipAddress last) with
          | Some prevLocation =>
              details
                ++ [PreviousLoginFrom (city prevLocation)
                                      (country prevLocation)]
          | None => details
          end
      | None => details
      end
    else details in
  let details :=
    if (bruteForce f >? Fin 0)%num then
      let recentFailures :=
        getFailedAttemptsInWindow (failedAttempts profile)
                                  (timestamp attempt)
                                  (bruteForceWindow (config this)) in
      details
        ++ [FailedLoginAttempts (length recentFailures)
                                (bruteForceWindow (config this))
                                (bruteForce f)]
    else details in
  if (unusualTime f >? Fin 0)%num then
    details ++ [LoginAtUnusualTime (unusualTime f)]
  else details.

(** [analyzeLogin]: the assessment and the detector after the call. The
    profile object of the map is the one the calculators have written to. *)
Definition analyzeLogin (this : Detector) (attempt : LoginAttempt)
  : RiskAssessment * Detector :=
  let '(profile, this) := getUserProfile this (userId attempt) in
  let profile := recordAttempt attempt profile in
  let '(f, profile) := calculateRiskFactors this attempt profile in
  let overall := calculateOverallRisk f in
  let level := determineRiskLevel this overall in
  let recs := generateRecommendations f level in
  let dets := generateDetails this attempt profile f in
  ({| assessment_userId := userId attempt;
      assessment_timestamp := timestamp attempt;
      overallRisk := overall;
      riskLevel := level;
      factors := f;
      recommendations := recs;
      details := dets |},
   {| config := config this;
      userProfiles := <[userId attempt := profile]> (userProfiles this) |}).

Fixpoint analyzeMultiple (this : Detector) (attempts : list LoginAttempt)
  : list RiskAssessment * Detector :=
  match attempts with
  | [] => ([], this)
  | attempt :: rest =>
      let '(assessment, this) := analyzeLogin this attempt in
      let '(results, this) := analyzeMultiple this rest in
      (assessment :: results, this)
  end.

Definition getUserProfileData (this : Detector) (uid : string)
  : option UserProfile :=
  userProfiles this !! uid.

End Engine.

(** *** core/detector, loading profiles *)

(** [loadProfiles]: every profile is stored under its own [userId], a later
    one replacing an earlier one. The timestamps, which the method wraps in
    [new Date], are time values already. *)
Definition loadProfiles (this : Detector) (profiles : list UserProfile)
  : Detector :=
  fold_left
    (fun this profile =>
       {| config := config this;
          userProfiles :=
            <[profile_userId profile := profile]> (userProfiles this) |})
    profiles this.

(** *** utils/config, [createConfig] *)


(** *** analyzer/logAnalyzer *)

Record AnalysisReport : Type := {
  totalLogins : nat;
  suspiciousLogins : nat;
  usersAnalyzed : nat;
  highRiskUsers : list string;
  reportGeneratedAt : Z;
  detailedResults : list RiskAssessment
}.

(** [Array.from(new Set(values))]: the values in the order of their first
    occurrence. *)
Fixpoint Array_from_Set (values : list string) : list string :=
  match values with
  | [] => []
  | x :: rest =>
      x :: List.filter (fun y => negb (String.eqb x y)) (Array_from_Set rest)
  end.

(** [a => a.riskLevel === 'high' || a.riskLevel === 'critical']. *)
Definition isSuspicious (a : RiskAssessment) : bool :=
  match riskLevel a with
  | high | critical => true
  | _ => false
  end.

(** [generateReport]; [now] is the [new Date()] of the call. *)
Definition generateReport
    (now : Z) (logins : list LoginAttempt) (assessments : list RiskAssessment)
  : AnalysisReport :=
  let suspicious := List.filter isSuspicious assessments in
  let uniqueUsers := Array_from_Set (map userId logins) in
  let highRisk := Array_from_Set (map assessment_userId suspicious) in
  {| totalLogins := length logins;
     suspiciousLogins := length suspicious;
     usersAnalyzed := length uniqueUsers;
     highRiskUsers := highRisk;
     reportGeneratedAt := now;
     detailedResults := assessments |}.

(** [loginAttempts.sort((a, b) => a.timestamp.getTime() -
    b.timestamp.getTime())]: the sort of an array is stable, attempts with
    the same timestamp keep their order. *)
Fixpoint insertByTimestamp (a : LoginAttempt) (sorted : list LoginAttempt)
  : list LoginAttempt :=
  match sorted with
  | [] => [a]
  | b :: rest =>
      if (timestamp a <=? timestamp b)%Z then a :: b :: rest
      else b :: insertByTimestamp a rest
  end.

Fixpoint sortByTimestamp (attempts : list LoginAttempt) : list LoginAttempt :=
  match attempts with
  | [] => []
  | a :: rest => insertByTimestamp a (sortByTimestamp rest)
  end.

Section LogAnalyzer.

Variable geoip_lookup : string -> option GeoipRecord.
Variable calculateDistance : Q -> Q -> Q -> Q -> Q.
Variable LocalTime : Z -> Z.

(** The analyzer holds a detector with the default configuration. *)
Definition newLogAnalyzer : Detector := constructor None.

(** [analyzeLogins] from the converted attempts on: the sort, the analysis
    in chronological order by the detector of the analyzer, and the report;
    the report and the detector after the call. *)
Definition analyzeLogins
    (detector : Detector) (now : Z) (loginAttempts : list LoginAttempt)
  : AnalysisReport * Detector :=
  let sorted := sortByTimestamp loginAttempts in
  let '(assessments, detector) :=
    analyzeMultiple geoip_lookup calculateDistance LocalTime detector sorted in
  (generateReport now sorted assessments, detector).

End LogAnalyzer.

(** ** The statements of the specification

    The quantities the specification speaks about, written from its words,
    to be compared with what the engine computes. *)

(** The order [low < medium < high < critical]. *)
Definition level_rank (l : RiskLevel) : nat :=
  match l with
  | low => 0
  | medium => 1
  | high => 2
  | critical => 3
  end.

Definition level_le (a b : RiskLevel) : Prop :=
  (level_rank a <= level_rank b)%nat.

Definition strictly_increasing (th : riskThresholds.t) : Prop :=
  (riskThresholds.low th < riskThresholds.medium th
   /\ riskThresholds.medium th < riskThresholds.high th
   /\ riskThresholds.high th < riskThresholds.critical th)%Q.

(** The classification, from the highest threshold to the lowest. *)
Definition classify (th : riskThresholds.t) (score : number) : RiskLevel :=
  if (score >=? Fin (riskThresholds.critical th))%num then critical
  else if (score >=? Fin (riskThresholds.high th))%num then high
  else if (score >=? Fin (riskThresholds.medium th))%num then medium
  else low.

(** The profile of a user: the stored one, or the empty one that
    [getUserProfile] creates for a user seen for the first time. *)
Definition profileOf (this : Detector) (uid : string) : UserProfile :=
  default (emptyProfile uid) (userProfiles this !! uid).

(** Impossible travel: the score of a required speed. *)
Definition impossibleTravelScore (speed : number) (maxSpeed : Q) : number :=
  if (speed >? Fin maxSpeed)%num then
    Math_min (Fin 100)
             (Fin 60 + (speed / Fin maxSpeed - Fin 1) * Fin 40)%num
  else if (speed >? Fin (7 # 10) * Fin maxSpeed)%num then Fin 30
  else Fin 0.


(** The number of full hours contained in the absolute difference. *)
Definition fullHours (t1 t2 : Z) : Z := Z.abs (t1 - t2) / 3600000.

(** The required speed over a number of full hours: infinite over none. *)
Definition speedOverFullHours (distance : Q) (hours : Z) : number :=
  if (hours =? 0)%Z then PInf else Fin (distance / inject_Z hours).

(** Brute force: the score of a number of recent failures. *)
Definition bruteForceScore (count : nat) (threshold : Q) : number :=
  if (of_nat count >=? Fin threshold)%num then
    Math_min (Fin 100)
             (Fin 70 + (of_nat count / Fin threshold - Fin 1) * Fin 30)%num
  else if (of_nat count >=? Fin (7 # 10) * Fin threshold)%num then Fin 40
  else Fin 0.

(** A timestamp within [window] minutes of another: by the absolute
    difference, and by the number of full minutes in it. *)
Definition withinMinutes (window : Q) (t1 t2 : Z) : bool :=
  Qle_bool (inject_Z (Z.abs (t1 - t2)) / 60000) window.

Definition withinFullMinutes (window : Q) (t1 t2 : Z) : bool :=
  Qle_bool (inject_Z (Z.abs (t1 - t2) / 60000)) window.

(** The failed attempts on record when the brute-force factor is computed:
    the earlier ones and the current attempt when it is a failure. *)
Definition failuresOnRecord (prior : UserProfile) (attempt : LoginAttempt)
  : list LoginAttempt :=
  failedAttempts prior ++ (if success attempt then [] else [attempt]).

Definition countFailures
    (within : Z -> Z -> bool) (attempts : list LoginAttempt) (now : Z) : nat :=
  length
    (List.filter
       (fun a => negb (success a) && within (timestamp a) now) attempts).

(** Unusual time: the typical hours of a list of successful logins. *)
Section TypicalHours.

Variable LocalTime : Z -> Z.

Definition hourCount (logins : list LoginAttempt) (h : Z) : nat :=
  length
    (List.filter (fun l => (getHours LocalTime (timestamp l) =? h)%Z) logins).

(** The hour accounts for at least 10% of the logins. *)
Definition reachesTenPercent (logins : list LoginAttempt) (h : Z) : bool :=
  (length logins <=? 10 * hourCount logins h)%nat.

Definition isTypicalHour (logins : list LoginAttempt) (h : Z) : bool :=
  if existsb (reachesTenPercent logins) (seqZ 0 24)
  then reachesTenPercent logins h
  else (0 <? hourCount logins h)%nat.

End TypicalHours.

(** The successful logins on record when the unusual-time factor is computed:
    the history with the current attempt appended. *)
Definition successesOnRecord (prior : UserProfile) (attempt : LoginAttempt)
  : list LoginAttempt :=
  List.filter success (loginHistory prior ++ [attempt]).


(** A finite number between 0 and 100. *)
Definition in_range (x : number) : Prop :=
  exists q : Q, x = Fin q /\ (0 <= q <= 100)%Q.

(** No two typical locations with the same country and city. *)
Definition locationKey (loc : GeoLocation) : string * string :=
  (country loc, city loc).

Definition deduplicated (profile : UserProfile) : Prop :=
  NoDup (map locationKey (typicalLocations profile)).

(** The configuration with another [low] threshold, the rest unchanged. *)
Definition with_low (v : Q) (this : Detector) : Detector := {|
  config := {|
    maxTravelSpeed := maxTravelSpeed (config this);
    bruteForceWindow := bruteForceWindow (config this);
    bruteForceThreshold := bruteForceThreshold (config this);
    locationChangeThreshold := locationChangeThreshold (config this);
    riskThresholds := {|
      riskThresholds.low := v;
      riskThresholds.medium :=
        riskThresholds.medium (riskThresholds (config this));
      riskThresholds.high := riskThresholds.high (riskThresholds (config this));
      riskThresholds.critical :=
        riskThresholds.critical (riskThresholds (config this))
    |}
  |};
  userProfiles := userProfiles this
|}.

(** ** A sample environment

    Three addresses of a sample database, the great-circle distances between
    their cities rounded to the kilometre, and a process running in UTC. The
    scenarios below are evaluated in it. *)

Module Sample.

Definition newYork : GeoipRecord := {|
  geo_country := "US"; geo_region := "NY"; geo_city := "New York";
  geo_ll := (407128 # 10000, - (740060 # 10000))%Q
|}.

Definition chicago : GeoipRecord := {|
  geo_country := "US"; geo_region := "IL"; geo_city := "Chicago";
  geo_ll := (418781 # 10000, - (876298 # 10000))%Q
|}.

Definition tokyo : GeoipRecord := {|
  geo_country := "JP"; geo_region := "13"; geo_city := "Tokyo";
  geo_ll := (356762 # 10000, 1396503 # 10000)%Q
|}.

Definition geoip (ip : string) : option GeoipRecord :=
  if String.eqb ip "8.8.8.8" then Some newYork
  else if String.eqb ip "23.10.10.10" then Some chicago
  else if String.eqb ip "133.130.96.1" then Some tokyo
  else None.

(** New York - Chicago 1145 km, New York - Tokyo 10850 km,
    Chicago - Tokyo 10140 km. *)
Definition distance (lat1 lon1 lat2 lon2 : Q) : Q :=
  if Qeq_bool lat1 lat2 && Qeq_bool lon1 lon2 then 0
  else if Qle_bool 0 lon1 || Qle_bool 0 lon2 then
    if Qeq_bool lat1 (fst (geo_ll chicago))
       || Qeq_bool lat2 (fst (geo_ll chicago))
    then 10140 else 10850
  else 1145.

Definition utc (t : Z) : Z := t.

Definition attempt (uid : string) (t : Z) (ip : string) (ok : bool)
  : LoginAttempt :=
  {| userId := uid; timestamp := t; ipAddress := ip; success := ok;
     userAgent := None; sessionId := None |}.

Definition minute : Z := 60000.
Definition hour : Z := 3600000.

Definition analyze : Detector -> LoginAttempt -> RiskAssessment * Detector :=
  analyzeLogin geoip distance utc.

(** The detector after a sequence of calls of [analyzeLogin]. *)
Definition run (this : Detector) (attempts : list LoginAttempt) : Detector :=
  snd (analyzeMultiple geoip distance utc this attempts).

(** A new detector with the default configuration. *)
Definition fresh : Detector := constructor None.

(** A first login from New York, and a failed attempt from Chicago an hour
    and a half later. *)
Definition alice_first : LoginAttempt := attempt "alice" 0 "8.8.8.8" true.

Definition alice_in_chicago : LoginAttempt :=
  attempt "alice" (90 * minute) "23.10.10.10" false.

Definition after_alice_first : Detector := run fresh [alice_first].


Definition inNewYork : GeoLocation :=
  {| country := "US"; region := "NY"; city := "New York";
     latitude := fst (geo_ll newYork); longitude := snd (geo_ll newYork) |}.


(** Four failures at the same instant, and a fifth one thirty minutes and
    thirty seconds later. *)
Definition carol_failure : LoginAttempt :=
  attempt "carol" 0 "192.0.2.1" false.

Definition carol_late : LoginAttempt :=
  attempt "carol" (30 * minute + 30000) "192.0.2.1" false.

Definition after_carol_failures : Detector :=
  run fresh [carol_failure; carol_failure; carol_failure; carol_failure].

(** Ten successful logins at 10 o'clock on ten days in a row, and a login
    at 3 o'clock on the next day. *)
Definition dana_logins : list LoginAttempt :=
  map (fun day => attempt "dana" (day * 24 * hour + 10 * hour) "8.8.8.8" true)
      (seqZ 0 10).

Definition dana_at_three : LoginAttempt :=
  attempt "dana" (10 * 24 * hour + 3 * hour) "8.8.8.8" true.

Definition after_dana_logins : Detector := run fresh dana_logins.

(** A detector configured with a brute-force threshold of 0. *)
Definition zero_threshold : Detector :=
  constructor
    (Some {| opt_maxTravelSpeed := None;
             opt_bruteForceWindow := None;
             opt_bruteForceThreshold := Some 0%Q;
             opt_locationChangeThreshold := None;
             opt_riskThresholds := None |}).

End Sample.

(** ** Notions of the further properties *)

(** The attempts of a user among a sequence of attempts, the failed attempts
    of a sequence, and its last successful one. *)
Definition attemptsOf (uid : string) (attempts : list LoginAttempt)
  : list LoginAttempt :=
  List.filter (fun a => String.eqb (userId a) uid) attempts.

Definition failuresOf (attempts : list LoginAttempt) : list LoginAttempt :=
  List.filter (fun a => negb (success a)) attempts.

Definition lastSuccessOf (attempts : list LoginAttempt)
  : option LoginAttempt :=
  list.last (List.filter success attempts).

(** Every stored profile sits under its own [userId]. *)
Definition keyedByUserId (this : Detector) : Prop :=
  forall (uid : string) (profile : UserProfile),
    userProfiles this !! uid = Some profile -> profile_userId profile = uid.

(** A typical location with the country and city of [loc]. *)
Definition isTypicalLocation (loc : GeoLocation) (profile : UserProfile)
  : bool :=
  existsb (fun l => sameCityCountry l loc) (typicalLocations profile).



(** Chronological order of attempts. *)
Definition notLater (a b : LoginAttempt) : Prop :=
  timestamp a <= timestamp b.

(** The user and the instant of an attempt and of an assessment. *)
Definition attemptKey (a : LoginAttempt) : string * Z :=
  (userId a, timestamp a).

Definition assessmentKey (r : RiskAssessment) : string * Z :=
  (assessment_userId r, assessment_timestamp r).

(** * Properties *)

(** ** Facts on numbers *)

Lemma num_gt_Fin (a b : Q) : num_gt (Fin a) (Fin b) = true <-> (b < a)%Q.
Proof.
  unfold num_gt; simpl. destruct (Qcompare_spec a b) as [H|H|H];
    split; intros H'; try discriminate; try reflexivity; try assumption.
  - rewrite H in H'. exfalso; apply (Qlt_irrefl _ H').
  - exfalso; apply (Qlt_irrefl a); eapply Qlt_trans; eassumption.
Qed.

Lemma num_ge_Fin (a b : Q) : num_ge (Fin a) (Fin b) = true <-> (b <= a)%Q.
Proof.
  unfold num_ge; simpl. destruct (Qcompare_spec a b) as [H|H|H];
    split; intros H'; try discriminate; try reflexivity.
  - rewrite H; apply Qle_refl.
  - exfalso; apply (Qlt_irrefl a); eapply Qlt_le_trans; eassumption.
  - apply Qlt_le_weak; assumption.
Qed.

Lemma num_gt_Fin_false (a b : Q) :
  num_gt (Fin a) (Fin b) = false <-> (a <= b)%Q.
Proof.
  rewrite <- not_true_iff_false, num_gt_Fin. split.
  - apply Qnot_lt_le.
  - apply Qle_not_lt.
Qed.

Lemma num_ge_Fin_false (a b : Q) :
  num_ge (Fin a) (Fin b) = false <-> (a < b)%Q.
Proof.
  rewrite <- not_true_iff_false, num_ge_Fin. split.
  - apply Qnot_le_lt.
  - apply Qlt_not_le.
Qed.

Lemma num_cmp_Qeq (a a' b b' : Q) :
  (a == a')%Q -> (b == b')%Q -> num_cmp (Fin a) (Fin b) = num_cmp (Fin a') (Fin b').
Proof. intros Ha Hb; simpl. now rewrite Ha, Hb. Qed.

Lemma num_mul_comm (x y : number) : (x * y)%num = (y * x)%num.
Proof.
  destruct x as [a| | |], y as [b| | |]; simpl; try reflexivity;
    try (now destruct (a ?= 0)%Q); try (now destruct (b ?= 0)%Q).
  unfold Qmult. now rewrite Z.mul_comm, Pos.mul_comm.
Qed.

Lemma is_zero_false (q : Q) : is_zero q = false <-> ~ (q == 0)%Q.
Proof.
  unfold is_zero. rewrite <- not_true_iff_false, Qeq_bool_iff. tauto.
Qed.

Lemma num_div_Fin (a b : Q) :
  ~ (b == 0)%Q -> (Fin a / Fin b)%num = Fin (a / b).
Proof.
  intros Hb. simpl. apply is_zero_false in Hb. now rewrite Hb.
Qed.

(** [Math.min(100, x)] of a nonnegative or infinite [x] lies in [0, 100]. *)
Lemma Math_min_100_range (x : number) :
  (x = PInf \/ exists q, x = Fin q /\ (0 <= q)%Q) ->
  exists q, Math_min (Fin 100) x = Fin q /\ (0 <= q <= 100)%Q.
Proof.
  intros [->|[q [-> Hq]]].
  - exists 100%Q. split; [reflexivity | split; discriminate].
  - unfold Math_min; simpl.
    destruct (Qcompare_spec 100 q) as [H|H|H].
    + exists 100%Q. split; [reflexivity | split; discriminate].
    + exists 100%Q. split; [reflexivity | split; discriminate].
    + exists q. split; [reflexivity | split; [assumption | lra]].
Qed.


Lemma Math_round_range (q : Q) :
  (0 <= q <= 100)%Q ->
  exists z : Z, Math_round (Fin q) = of_Z z /\ 0 <= z <= 100.
Proof.
  intros [Hlo Hhi]. exists (Qfloor (q + (1 # 2))). split; [reflexivity|].
  split.
  - change 0 with (Qfloor 0). apply Qfloor_resp_le. lra.
  - change 100 with (Qfloor (201 # 2)). apply Qfloor_resp_le. lra.
Qed.

(** ** The classifier *)

Lemma determineRiskLevel_classify (this : Detector) (score : number) :
  determineRiskLevel this score = classify (riskThresholds (config this)) score.
Proof. reflexivity. Qed.

Lemma level_le_critical (l : RiskLevel) : level_le l critical.
Proof. unfold level_le; destruct l; simpl; lia. Qed.

Lemma level_le_low (l : RiskLevel) : level_le low l.
Proof. unfold level_le; destruct l; simpl; lia. Qed.

(** [>=] is monotone in its left operand. *)
Lemma num_ge_mono (s1 s2 : number) (t : Q) :
  num_le s1 s2 = true -> num_ge s1 (Fin t) = true -> num_ge s2 (Fin t) = true.
Proof.
  unfold num_le. destruct s1 as [a| | |], s2 as [b| | |];
    try discriminate; try reflexivity; intros H12 H1.
  rewrite num_ge_Fin in *. lra.
Qed.

(** The classification is monotone, whatever the thresholds. *)
Lemma classify_monotone (th : riskThresholds.t) (s1 s2 : number) :
  num_le s1 s2 = true -> level_le (classify th s1) (classify th s2).
Proof.
  intros Hle. unfold classify.
  destruct (num_ge s2 (Fin (riskThresholds.critical th))) eqn:Hc2;
    [apply level_le_critical|].
  destruct (num_ge s1 (Fin (riskThresholds.critical th))) eqn:Hc1;
    [rewrite (num_ge_mono _ _ _ Hle Hc1) in Hc2; discriminate|].
  destruct (num_ge s2 (Fin (riskThresholds.high th))) eqn:Hh2.
  { destruct (num_ge s1 (Fin (riskThresholds.high th)));
      [|destruct (num_ge s1 (Fin (riskThresholds.medium th)))];
      unfold level_le; simpl; lia. }
  destruct (num_ge s1 (Fin (riskThresholds.high th))) eqn:Hh1;
    [rewrite (num_ge_mono _ _ _ Hle Hh1) in Hh2; discriminate|].
  destruct (num_ge s2 (Fin (riskThresholds.medium th))) eqn:Hm2.
  { destruct (num_ge s1 (Fin (riskThresholds.medium th)));
      unfold level_le; simpl; lia. }
  destruct (num_ge s1 (Fin (riskThresholds.medium th))) eqn:Hm1;
    [rewrite (num_ge_mono _ _ _ Hle Hm1) in Hm2; discriminate|].
  apply level_le_low.
Qed.

Lemma num_ge_num_eq (s s' : number) (t : Q) :
  num_eq s s' -> num_ge s (Fin t) = num_ge s' (Fin t).
Proof.
  destruct s as [a| | |], s' as [b| | |]; simpl; try tauto.
  intros H. unfold num_ge. now rewrite (num_cmp_Qeq a b t t H (Qeq_refl t)).
Qed.

(** C7: with strictly increasing thresholds, the risk level of a score is
    read off the thresholds from the highest to the lowest (critical from
    [critical] on, else high from [high] on, else medium from [medium] on,
    else low); it is a function of the score and the thresholds alone (two
    detectors with the same thresholds give equal scores the same level);
    and it is monotone: a score that is not smaller gets a level that is not
    lower in the order low < medium < high < critical. *)
Theorem riskLevel_deterministic_monotone
    (this : Detector) (s1 s2 : number)
    (Hinc : strictly_increasing (riskThresholds (config this)))
    (Hle : num_le s1 s2 = true) :
  let th := riskThresholds (config this) in
  (forall q : Q,
      (determineRiskLevel this (Fin q) = critical
       <-> (riskThresholds.critical th <= q)%Q)
      /\ (determineRiskLevel this (Fin q) = high
          <-> (riskThresholds.high th <= q < riskThresholds.critical th)%Q)
      /\ (determineRiskLevel this (Fin q) = medium
          <-> (riskThresholds.medium th <= q < riskThresholds.high th)%Q)
      /\ (determineRiskLevel this (Fin q) = low
          <-> (q < riskThresholds.medium th)%Q))
  /\ (forall (other : Detector) (s s' : number),
         riskThresholds (config other) = th -> num_eq s s' ->
         determineRiskLevel other s' = determineRiskLevel this s)
  /\ level_le (determineRiskLevel this s1) (determineRiskLevel this s2).
Proof.
  intros th. destruct Hinc as (Hlm & Hmh & Hhc). fold th in Hlm, Hmh, Hhc.
  split; [|split].
  - intros q. rewrite determineRiskLevel_classify. fold th. unfold classify.
    destruct (num_ge (Fin q) (Fin (riskThresholds.critical th))) eqn:Hc;
      [apply num_ge_Fin in Hc | apply num_ge_Fin_false in Hc];
      (destruct (num_ge (Fin q) (Fin (riskThresholds.high th))) eqn:Hh;
       [apply num_ge_Fin in Hh | apply num_ge_Fin_false in Hh]);
      (destruct (num_ge (Fin q) (Fin (riskThresholds.medium th))) eqn:Hm;
       [apply num_ge_Fin in Hm | apply num_ge_Fin_false in Hm]);
      repeat split; intros; try discriminate; try reflexivity;
        try assumption; try lra.
  - intros other s s' Hth Hs. rewrite !determineRiskLevel_classify, Hth.
    fold th. unfold classify.
    now rewrite !(num_ge_num_eq s s' _ Hs).
  - rewrite !determineRiskLevel_classify. now apply classify_monotone.
Qed.

(** ** The aggregator *)


(** ** [analyzeLogin], step by step *)

Section AnalyzeLogin.

Variable geoip_lookup : string -> option GeoipRecord.
Variable calculateDistance : Q -> Q -> Q -> Q -> Q.
Variable LocalTime : Z -> Z.

Local Abbreviation analyze :=
  (analyzeLogin geoip_lookup calculateDistance LocalTime).
Local Abbreviation riskFactors :=
  (calculateRiskFactors geoip_lookup calculateDistance LocalTime).
Local Abbreviation locate := (getLocationFromIP geoip_lookup).

Lemma getUserProfile_fst (this : Detector) (uid : string) :
  fst (getUserProfile this uid) = profileOf this uid.
Proof.
  unfold getUserProfile, profileOf.
  now destruct (userProfiles this !! uid).
Qed.

(** The assessment and the new state in terms of the calculators run on
    the recorded attempt. *)
Lemma analyzeLogin_eq (this : Detector) (attempt : LoginAttempt) :
  let fp := riskFactors this attempt
              (recordAttempt attempt
                             (profileOf this (userId attempt))) in
  let overall := calculateOverallRisk (fst fp) in
  let level := determineRiskLevel this overall in
  analyze this attempt
  = ({| assessment_userId := userId attempt;
        assessment_timestamp := timestamp attempt;
        overallRisk := overall;
        riskLevel := level;
        factors := fst fp;
        recommendations := generateRecommendations (fst fp) level;
        details :=
          generateDetails geoip_lookup this attempt (snd fp) (fst fp) |},
     {| config := config this;
        userProfiles :=
          <[userId attempt := snd fp]> (userProfiles this) |}).
Proof.
  unfold analyzeLogin, getUserProfile, profileOf.
  destruct (userProfiles this !! userId attempt) as [p|]; simpl.
  - now destruct (riskFactors this attempt (recordAttempt attempt p)).
  - change (calculateRiskFactors geoip_lookup calculateDistance LocalTime
              {| config := config this;
                 userProfiles :=
                   <[userId attempt := emptyProfile (userId attempt)]>
                     (userProfiles this) |})
      with (riskFactors this).
    destruct (riskFactors this attempt
                (recordAttempt attempt (emptyProfile (userId attempt)))).
    simpl. now rewrite insert_insert_eq.
Qed.

Lemma riskFactors_eq
    (this : Detector) (attempt : LoginAttempt) (profile : UserProfile) :
  let lc := calculateLocationChangeRisk geoip_lookup attempt profile in
  let ut := calculateUnusualTimeRisk LocalTime attempt (snd lc) in
  riskFactors this attempt profile
  = ({| locationChange := fst lc;
        impossibleTravel :=
          calculateImpossibleTravelRisk geoip_lookup calculateDistance
                                        this attempt (snd lc);
        bruteForce := calculateBruteForceRisk this attempt (snd lc);
        unusualTime := fst ut |},
     snd ut).
Proof.
  unfold calculateRiskFactors.
  destruct (calculateLocationChangeRisk geoip_lookup attempt profile)
    as [lc p1]; simpl.
  now destruct (calculateUnusualTimeRisk LocalTime attempt p1).
Qed.

(** What the two writing calculators leave alone. *)
Lemma locationChange_keeps (attempt : LoginAttempt) (profile : UserProfile) :
  let p := snd (calculateLocationChangeRisk geoip_lookup attempt profile) in
  loginHistory p = loginHistory profile
  /\ failedAttempts p = failedAttempts profile
  /\ lastSuccessfulLogin p = lastSuccessfulLogin profile.
Proof.
  unfold calculateLocationChangeRisk.
  destruct (locate (ipAddress attempt)); [|now simpl].
  destruct (length (loginHistory profile) =? 0)%nat; [now simpl|].
  now destruct (existsb _ _).
Qed.

Lemma unusualTime_keeps (attempt : LoginAttempt) (profile : UserProfile) :
  let p := snd (calculateUnusualTimeRisk LocalTime attempt profile) in
  loginHistory p = loginHistory profile
  /\ failedAttempts p = failedAttempts profile
  /\ lastSuccessfulLogin p = lastSuccessfulLogin profile
  /\ typicalLocations p = typicalLocations profile.
Proof.
  unfold calculateUnusualTimeRisk.
  destruct (length (List.filter success (loginHistory profile)) <? 10)%nat;
    [now simpl|].
  now destruct (isUnusualLoginTime _ _ _).
Qed.

(** The history is never empty when the location calculator runs. *)
Lemma recordAttempt_history (attempt : LoginAttempt) (profile : UserProfile) :
  (length (loginHistory (recordAttempt attempt profile)) =? 0)%nat = false.
Proof.
  simpl. rewrite length_app. simpl. apply Nat.eqb_neq. lia.
Qed.

Lemma locationChange_recorded
    (attempt : LoginAttempt) (profile : UserProfile) :
  calculateLocationChangeRisk geoip_lookup attempt
                              (recordAttempt attempt profile)
  = match locate (ipAddress attempt) with
    | None => (Fin 0, recordAttempt attempt profile)
    | Some loc =>
        if existsb (fun l => sameCityCountry l loc)
                   (typicalLocations profile)
        then (Fin 0, recordAttempt attempt profile)
        else (Fin 40,
              push_typicalLocation loc (recordAttempt attempt profile))
    end.
Proof.
  unfold calculateLocationChangeRisk.
  destruct (locate (ipAddress attempt)); [|reflexivity].
  now rewrite recordAttempt_history.
Qed.

(** The stored profile after a call. *)
Lemma analyzeLogin_profile (this : Detector) (attempt : LoginAttempt) :
  userProfiles (snd (analyze this attempt)) !! userId attempt
  = Some (snd (riskFactors this attempt
                 (recordAttempt attempt
                                (profileOf this (userId attempt))))).
Proof.
  rewrite analyzeLogin_eq. simpl. apply lookup_insert_eq.
Qed.

Lemma analyzeLogin_other_profile
    (this : Detector) (attempt : LoginAttempt) (uid : string) :
  uid <> userId attempt ->
  userProfiles (snd (analyze this attempt)) !! uid = userProfiles this !! uid.
Proof.
  intros Hne. rewrite analyzeLogin_eq. simpl.
  now rewrite lookup_insert_ne.
Qed.

Lemma analyzeLogin_factors (this : Detector) (attempt : LoginAttempt) :
  factors (fst (analyze this attempt))
  = fst (riskFactors this attempt
           (recordAttempt attempt (profileOf this (userId attempt)))).
Proof. now rewrite analyzeLogin_eq. Qed.

(** ** Location change *)

(** The first attempt ever analyzed for a user, from an address that
    resolves: the location is recorded and the factor is 40, the cold-start
    branch being out of reach once the attempt is in the history. *)
Lemma first_attempt_locationChange
    (this : Detector) (attempt : LoginAttempt) (loc : GeoLocation) :
  userProfiles this !! userId attempt = None ->
  locate (ipAddress attempt) = Some loc ->
  locationChange (factors (fst (analyze this attempt))) = Fin 40
  /\ (typicalLocations
        <$> userProfiles (snd (analyze this attempt)) !! userId attempt)
     = Some [loc].
Proof.
  intros Hnew Hloc.
  rewrite analyzeLogin_factors, analyzeLogin_profile, riskFactors_eq.
  cbv zeta. unfold profileOf. rewrite Hnew. cbn [default fst snd].
  destruct (unusualTime_keeps attempt
              (snd (calculateLocationChangeRisk geoip_lookup attempt
                      (recordAttempt attempt
                                     (emptyProfile (userId attempt))))))
    as (_ & _ & _ & Hloc').
  cbn [fmap option_fmap option_map locationChange].
  rewrite Hloc', locationChange_recorded, Hloc. now simpl.
Qed.

Lemma existsb_sameCityCountry (loc : GeoLocation) (locs : list GeoLocation) :
  existsb (fun l => sameCityCountry l loc) locs = false ->
  ~ In (locationKey loc) (map locationKey locs).
Proof.
  induction locs as [|l locs IH]; simpl; [tauto|].
  intros H. apply orb_false_iff in H as [Hl Hrest].
  intros [Heq|Hin]; [|now apply IH].
  unfold sameCityCountry in Hl. unfold locationKey in Heq.
  injection Heq as Hc Hy.
  rewrite Hc, Hy, !String.eqb_refl in Hl. discriminate.
Qed.

Lemma NoDup_snoc {A : Type} (l : list A) (x : A) :
  NoDup l -> ~ In x l -> NoDup (l ++ [x]).
Proof.
  intros Hl Hx. apply NoDup_app. split; [exact Hl|]. split.
  - intros y Hy Hyx. apply list_elem_of_In in Hy.
    apply list_elem_of_In in Hyx. simpl in Hyx.
    destruct Hyx as [->|[]]. contradiction.
  - apply NoDup_singleton.
Qed.

Lemma locationChange_deduplicated
    (attempt : LoginAttempt) (profile : UserProfile) :
  deduplicated profile ->
  deduplicated
    (snd (calculateLocationChangeRisk geoip_lookup attempt
            (recordAttempt attempt profile))).
Proof.
  intros Hd. rewrite locationChange_recorded.
  destruct (locate (ipAddress attempt)) as [loc|]; [|exact Hd].
  destruct (existsb _ _) eqn:Hex; [exact Hd|].
  unfold deduplicated; simpl. rewrite map_app; simpl.
  apply NoDup_snoc; [exact Hd|]. now apply existsb_sameCityCountry.
Qed.

(** C9: a call of [analyzeLogin] keeps every profile free of two typical
    locations with the same country and city: the profile of the attempt's
    user (an empty one if the user is new), which is the only one the call
    writes to, and the profiles of the other users, which it leaves as they
    are. *)
Theorem typicalLocations_stay_deduplicated
    (this : Detector) (attempt : LoginAttempt) (uid : string)
    (Hdedup : deduplicated (profileOf this uid)) :
  deduplicated (profileOf (snd (analyze this attempt)) uid).
Proof.
  unfold profileOf at 1.
  destruct (decide (uid = userId attempt)) as [->|Hne].
  - rewrite analyzeLogin_profile, riskFactors_eq. cbv zeta.
    cbn [default snd id].
    destruct (unusualTime_keeps attempt
                (snd (calculateLocationChangeRisk geoip_lookup attempt
                        (recordAttempt attempt
                           (profileOf this (userId attempt))))))
      as (_ & _ & _ & Hloc).
    unfold deduplicated. rewrite Hloc.
    now apply locationChange_deduplicated.
  - rewrite analyzeLogin_other_profile by exact Hne. exact Hdedup.
Qed.

(** ** The [low] threshold *)

(** C10: the risk level of a score does not depend on
    [riskThresholds.low]: a detector whose configuration differs in the
    value of the low threshold alone assigns the same level to every score,
    and returns the same assessment (and keeps the same profiles) for
    every attempt. *)
Theorem riskLevel_ignores_low_threshold
    (this : Detector) (v : Q) (score : number) (attempt : LoginAttempt) :
  determineRiskLevel (with_low v this) score = determineRiskLevel this score
  /\ fst (analyze (with_low v this) attempt) = fst (analyze this attempt)
  /\ userProfiles (snd (analyze (with_low v this) attempt))
     = userProfiles (snd (analyze this attempt)).
Proof.
  split; [reflexivity|].
  rewrite !analyzeLogin_eq. cbv zeta. split; reflexivity.
Qed.

(** ** Brute force *)

Lemma getTimeDifferenceInMinutes_full (t1 t2 : Z) :
  getTimeDifferenceInMinutes t1 t2 = Z.abs (t1 - t2) / 60000.
Proof.
  unfold getTimeDifferenceInMinutes, differenceInMinutes,
    differenceInMilliseconds.
  rewrite <- (Z.quot_abs (t1 - t2) 60000) by lia.
  change (Z.abs 60000) with 60000.
  apply Z.quot_div_nonneg; lia.
Qed.

Lemma getTimeDifferenceInHours_full (t1 t2 : Z) :
  getTimeDifferenceInHours t1 t2 = fullHours t1 t2.
Proof.
  unfold getTimeDifferenceInHours, differenceInHours,
    differenceInMilliseconds, fullHours.
  rewrite <- (Z.quot_abs (t1 - t2) 3600000) by lia.
  change (Z.abs 3600000) with 3600000.
  apply Z.quot_div_nonneg; lia.
Qed.

Lemma num_le_Qle_bool (a b : Q) : num_le (Fin a) (Fin b) = Qle_bool a b.
Proof.
  apply eq_true_iff_eq. unfold num_le.
  now rewrite num_ge_Fin, Qle_bool_iff.
Qed.

Lemma getFailedAttemptsInWindow_count
    (attempts : list LoginAttempt) (now : Z) (window : Q) :
  length (getFailedAttemptsInWindow attempts now window)
  = countFailures (withinFullMinutes window) attempts now.
Proof.
  unfold getFailedAttemptsInWindow, countFailures. f_equal.
  apply filter_ext. intros a.
  destruct (success a); [reflexivity|]. cbn [negb andb].
  unfold withinFullMinutes, of_Z.
  now rewrite getTimeDifferenceInMinutes_full, num_le_Qle_bool.
Qed.

Lemma calculateBruteForceRisk_score
    (this : Detector) (attempt : LoginAttempt) (profile : UserProfile) :
  calculateBruteForceRisk this attempt profile
  = bruteForceScore
      (countFailures (withinFullMinutes (bruteForceWindow (config this)))
                     (failedAttempts profile) (timestamp attempt))
      (bruteForceThreshold (config this)).
Proof.
  unfold calculateBruteForceRisk, bruteForceScore.
  rewrite getFailedAttemptsInWindow_count.
  now rewrite (num_mul_comm (Fin (bruteForceThreshold (config this)))).
Qed.

Lemma recordAttempt_failedAttempts
    (attempt : LoginAttempt) (profile : UserProfile) :
  failedAttempts (recordAttempt attempt profile)
  = failuresOnRecord profile attempt.
Proof.
  unfold failuresOnRecord; simpl.
  destruct (success attempt); [now rewrite app_nil_r | reflexivity].
Qed.

Lemma analyzeLogin_bruteForce (this : Detector) (attempt : LoginAttempt) :
  bruteForce (factors (fst (analyze this attempt)))
  = calculateBruteForceRisk this attempt
      (recordAttempt attempt (profileOf this (userId attempt))).
Proof.
  rewrite analyzeLogin_factors, riskFactors_eq. cbv zeta.
  cbn [fst bruteForce]. unfold calculateBruteForceRisk.
  destruct (locationChange_keeps attempt
              (recordAttempt attempt (profileOf this (userId attempt))))
    as (_ & Hfailed & _).
  now rewrite Hfailed.
Qed.

(** C3, amended: the brute-force factor of every analyzed attempt is the
    score of the number of failed attempts on record (the earlier ones and
    the current attempt itself when it is a failure) whose timestamp is at
    most [bruteForceWindow] full minutes away from the current one, a
    difference counting for the number of full minutes it contains; the
    score of a count is [min(100, 70 + (count/bruteForceThreshold - 1) * 30)]
    from [bruteForceThreshold] on, 40 from [0.7 * bruteForceThreshold] on,
    and 0 below. *)
Theorem bruteForce_counts_full_minutes
    (this : Detector) (attempt : LoginAttempt) :
  bruteForce (factors (fst (analyze this attempt)))
  = bruteForceScore
      (countFailures
         (withinFullMinutes (bruteForceWindow (config this)))
         (failuresOnRecord (profileOf this (userId attempt)) attempt)
         (timestamp attempt))
      (bruteForceThreshold (config this)).
Proof.
  rewrite analyzeLogin_bruteForce, calculateBruteForceRisk_score.
  now rewrite recordAttempt_failedAttempts.
Qed.

(** ** Impossible travel *)

Lemma of_Z_is_zero (h : Z) :
  num_cmp (of_Z h) (Fin 0) = Some Eq <-> h = 0.
Proof.
  unfold of_Z; simpl. split.
  - intros H. injection H as H. apply Qeq_alt in H.
    now apply (inject_Z_injective h 0).
  - intros ->. reflexivity.
Qed.

Lemma calculateTravelSpeed_full_hours
    (location1 location2 : GeoLocation) (h : Z) :
  calculateTravelSpeed calculateDistance location1 location2 (of_Z h)
  = speedOverFullHours
      (calculateDistance (latitude location1) (longitude location1)
                         (latitude location2) (longitude location2)) h.
Proof.
  unfold calculateTravelSpeed, speedOverFullHours.
  destruct (Z.eqb_spec h 0) as [->|Hne]; [reflexivity|].
  assert (Hz : ~ (inject_Z h == 0)%Q)
    by (intros H; now apply (inject_Z_injective h 0) in H).
  assert (Hcmp : num_cmp (of_Z h) (Fin 0) <> Some Eq)
    by (intros H; now apply of_Z_is_zero in H).
  unfold of_Z in *. rewrite (num_div_Fin _ _ Hz).
  destruct (num_cmp (Fin (inject_Z h)) (Fin 0)) as [[| |]|];
    try reflexivity. congruence.
Qed.


(** The factor of an infinite speed. *)
Lemma impossibleTravelScore_infinite (maxSpeed : Q) :
  (0 <= maxSpeed)%Q -> impossibleTravelScore PInf maxSpeed = Fin 100.
Proof.
  intros Hmax. unfold impossibleTravelScore. cbn [num_gt num_cmp num_div].
  destruct (Qcompare_spec maxSpeed 0) as [H|H|H]; try reflexivity.
  exfalso. apply (Qlt_irrefl 0). now apply Qle_lt_trans with maxSpeed.
Qed.


(** In [analyzeLogin] a successful attempt has become the last successful
    login when the calculators run: it is compared with itself and its
    factor is 0. *)
Lemma analyzeLogin_success_impossibleTravel
    (this : Detector) (attempt : LoginAttempt) :
  success attempt = true ->
  impossibleTravel (factors (fst (analyze this attempt))) = Fin 0.
Proof.
  intros Hok. rewrite analyzeLogin_factors, riskFactors_eq. cbv zeta.
  cbn [fst impossibleTravel]. unfold calculateImpossibleTravelRisk.
  destruct (locationChange_keeps attempt
              (recordAttempt attempt (profileOf this (userId attempt))))
    as (_ & _ & ->).
  cbn [recordAttempt lastSuccessfulLogin]. rewrite Hok.
  destruct (locate (ipAddress attempt)) as [loc|]; [|reflexivity].
  now rewrite !String.eqb_refl.
Qed.

(** ** The range of the factors and of the overall risk *)

Lemma in_range_const (q : Q) : (0 <= q <= 100)%Q -> in_range (Fin q).
Proof. intros H. now exists q. Qed.

Lemma impossibleTravelScore_range (speed : number) (maxSpeed : Q) :
  (0 <= maxSpeed)%Q ->
  (speed = PInf \/ exists s, speed = Fin s) ->
  in_range (impossibleTravelScore speed maxSpeed).
Proof.
  intros Hmax [->|[s ->]].
  - rewrite impossibleTravelScore_infinite by exact Hmax.
    apply in_range_const. lra.
  - unfold impossibleTravelScore.
    destruct (num_gt (Fin s) (Fin maxSpeed)) eqn:Hgt.
    + apply num_gt_Fin in Hgt. apply Math_min_100_range.
      cbn [num_div]. destruct (is_zero maxSpeed) eqn:Hz.
      * left. apply Qeq_bool_iff in Hz.
        assert (Hs : (0 < s)%Q) by lra.
        apply Qgt_alt in Hs. now rewrite Hs.
      * right. apply is_zero_false in Hz.
        assert (Hpos : (0 < maxSpeed)%Q) by lra.
        eexists. split; [reflexivity|].
        assert (Hr : (1 <= s / maxSpeed)%Q)
          by (apply Qle_shift_div_l; lra).
        lra.
    + clear Hgt. destruct (num_gt _ _); apply in_range_const; lra.
Qed.

Lemma speedOverFullHours_shape (distance : Q) (h : Z) :
  speedOverFullHours distance h = PInf
  \/ exists s, speedOverFullHours distance h = Fin s.
Proof.
  unfold speedOverFullHours. destruct (h =? 0)%Z; [now left|].
  right. now eexists.
Qed.

Lemma calculateImpossibleTravelRisk_range
    (this : Detector) (attempt : LoginAttempt) (profile : UserProfile) :
  (0 <= maxTravelSpeed (config this))%Q ->
  in_range (calculateImpossibleTravelRisk geoip_lookup calculateDistance
                                          this attempt profile).
Proof.
  intros Hmax. unfold calculateImpossibleTravelRisk.
  destruct (lastSuccessfulLogin profile) as [last|];
    [|apply in_range_const; lra].
  destruct (locate (ipAddress attempt)) as [current|];
    [|apply in_range_const; lra].
  destruct (locate (ipAddress last)) as [previous|];
    [|apply in_range_const; lra].
  destruct (_ && _); [apply in_range_const; lra|].
  rewrite getTimeDifferenceInHours_full, calculateTravelSpeed_full_hours.
  rewrite (num_mul_comm (Fin (maxTravelSpeed (config this)))).
  apply (impossibleTravelScore_range _ _ Hmax).
  apply speedOverFullHours_shape.
Qed.

Lemma bruteForceScore_range (count : nat) (threshold : Q) :
  (0 < threshold)%Q -> in_range (bruteForceScore count threshold).
Proof.
  intros Hpos. unfold bruteForceScore, of_nat, of_Z.
  destruct (num_ge _ (Fin threshold)) eqn:Hge.
  - apply num_ge_Fin in Hge. apply Math_min_100_range. right.
    rewrite num_div_Fin by lra.
    eexists. split; [reflexivity|].
    assert (Hr : (1 <= inject_Z (Z.of_nat count) / threshold)%Q)
      by (apply Qle_shift_div_l; lra).
    lra.
  - clear Hge. destruct (num_ge _ _); apply in_range_const; lra.
Qed.

Lemma calculateLocationChangeRisk_range
    (attempt : LoginAttempt) (profile : UserProfile) :
  in_range (fst (calculateLocationChangeRisk geoip_lookup attempt profile)).
Proof.
  unfold calculateLocationChangeRisk.
  destruct (locate (ipAddress attempt)); [|apply in_range_const; lra].
  destruct (_ =? _)%nat; [apply in_range_const; lra|].
  destruct (existsb _ _); apply in_range_const; lra.
Qed.

Lemma calculateUnusualTimeRisk_range
    (attempt : LoginAttempt) (profile : UserProfile) :
  in_range (fst (calculateUnusualTimeRisk LocalTime attempt profile)).
Proof.
  unfold calculateUnusualTimeRisk.
  destruct (_ <? _)%nat; [apply in_range_const; lra|].
  destruct (isUnusualLoginTime _ _ _); apply in_range_const; lra.
Qed.

(** C6, amended: under a configuration whose [maxTravelSpeed] is not
    negative and whose [bruteForceThreshold] is positive, each of the four
    factors of an analyzed attempt lies in [0, 100], and the overall risk
    of the returned assessment is an integer between 0 and 100. *)
Theorem overallRisk_in_range
    (this : Detector) (attempt : LoginAttempt)
    (Hspeed : (0 <= maxTravelSpeed (config this))%Q)
    (Hthreshold : (0 < bruteForceThreshold (config this))%Q) :
  let assessment := fst (analyze this attempt) in
  in_range (locationChange (factors assessment))
  /\ in_range (impossibleTravel (factors assessment))
  /\ in_range (bruteForce (factors assessment))
  /\ in_range (unusualTime (factors assessment))
  /\ exists z : Z, overallRisk assessment = of_Z z /\ 0 <= z <= 100.
Proof.
  cbv zeta. rewrite analyzeLogin_eq. cbv zeta. cbn [fst overallRisk factors].
  rewrite riskFactors_eq. cbv zeta.
  cbn [fst locationChange impossibleTravel bruteForce unusualTime].
  set (p := recordAttempt attempt (profileOf this (userId attempt))).
  pose proof (calculateLocationChangeRisk_range attempt p) as Hlc.
  pose proof (calculateImpossibleTravelRisk_range this attempt
                (snd (calculateLocationChangeRisk geoip_lookup attempt p))
                Hspeed) as Hit.
  pose proof (calculateBruteForceRisk_score this attempt
                (snd (calculateLocationChangeRisk geoip_lookup attempt p)))
    as Hbf.
  pose proof (bruteForceScore_range
                (countFailures
                   (withinFullMinutes (bruteForceWindow (config this)))
                   (failedAttempts
                      (snd (calculateLocationChangeRisk geoip_lookup
                                                        attempt p)))
                   (timestamp attempt))
                _ Hthreshold) as Hbf'.
  rewrite <- Hbf in Hbf'. clear Hbf.
  pose proof (calculateUnusualTimeRisk_range attempt
                (snd (calculateLocationChangeRisk geoip_lookup attempt p)))
    as Hut.
  repeat (split; [assumption|]).
  unfold calculateOverallRisk.
  cbn [locationChange impossibleTravel bruteForce unusualTime].
  destruct Hlc as (a & -> & Ha), Hit as (b & -> & Hb),
           Hbf' as (c & -> & Hc), Hut as (d & -> & Hd).
  cbn [num_add num_mul]. apply Math_round_range. lra.
Qed.

(** ** Unusual time *)

Lemma countLoginsPerHour_lookup
    (logins : list LoginAttempt) (m : gmap Z nat) (h : Z) :
  countLoginsPerHour LocalTime logins m !! h
  = match hourCount LocalTime logins h with
    | O => m !! h
    | S n => Some (default 0%nat (m !! h) + S n)%nat
    end.
Proof.
  revert m. induction logins as [|l logins IH]; intros m; [reflexivity|].
  unfold countLoginsPerHour in *. cbn [fold_left]. rewrite IH. clear IH.
  unfold hourCount, getHourOfDay. cbn [List.filter].
  destruct (Z.eqb_spec (getHours LocalTime (timestamp l)) h) as [->|Hne].
  - rewrite lookup_insert_eq. cbn [length default].
    destruct (length _); f_equal; unfold id; lia.
  - now rewrite lookup_insert_ne.
Qed.

Lemma hourCounts_lookup (logins : list LoginAttempt) (h : Z) :
  countLoginsPerHour LocalTime logins ∅ !! h
  = match hourCount LocalTime logins h with
    | O => None
    | S n => Some (S n)
    end.
Proof.
  rewrite countLoginsPerHour_lookup, lookup_empty.
  now destruct (hourCount LocalTime logins h).
Qed.

Lemma Object_keys_In (m : gmap Z nat) (h : Z) :
  In h (Object_keys m) <-> is_Some (m !! h).
Proof.
  unfold Object_keys. rewrite <- list_elem_of_In, merge_sort_Permutation.
  rewrite list_elem_of_fmap. split.
  - intros [[k c] [-> Hin]]. apply elem_of_map_to_list in Hin.
    now exists c.
  - intros [c Hc]. exists (h, c). split; [reflexivity|].
    now apply elem_of_map_to_list.
Qed.

Lemma existsb_Z_eqb (h : Z) (l : list Z) :
  existsb (Z.eqb h) l = true <-> In h l.
Proof.
  rewrite existsb_exists. split.
  - intros [x [Hin Heq]]. apply Z.eqb_eq in Heq. now subst.
  - intros Hin. exists h. split; [exact Hin | apply Z.eqb_refl].
Qed.

Lemma getHours_range (t : Z) : 0 <= getHours LocalTime t < 24.
Proof. unfold getHours. apply Z.mod_pos_bound. lia. Qed.

Lemma In_seqZ_24 (h : Z) : In h (seqZ 0 24) <-> 0 <= h < 24.
Proof. rewrite <- list_elem_of_In, elem_of_seqZ. lia. Qed.

(** With a login on record, the test of the [for] loop is the 10% test. *)
Lemma typical_test (logins : list LoginAttempt) (h : Z) :
  (0 < length logins)%nat ->
  match countLoginsPerHour LocalTime logins ∅ !! h with
  | Some count =>
      (of_nat count >=? of_nat (length logins) * Fin (1 # 10))%num
  | None => false
  end = reachesTenPercent LocalTime logins h.
Proof.
  intros Hpos. rewrite hourCounts_lookup. unfold reachesTenPercent.
  destruct (hourCount LocalTime logins h) as [|n] eqn:Hn.
  - symmetry. apply Nat.leb_gt. lia.
  - apply eq_true_iff_eq. unfold of_nat, of_Z. cbn [num_mul].
    rewrite num_ge_Fin, Nat.leb_le. split.
    + intros H. apply Nat2Z.inj_le. rewrite Nat2Z.inj_mul.
      apply (Qmult_le_r _ _ 10) in H; [|reflexivity].
      rewrite Zle_Qle, inject_Z_mult. change (inject_Z (Z.of_nat 10)) with 10%Q.
      lra.
    + intros H. apply Nat2Z.inj_le in H. rewrite Nat2Z.inj_mul in H.
      rewrite Zle_Qle, inject_Z_mult in H.
      change (inject_Z (Z.of_nat 10)) with 10%Q in H. lra.
Qed.

Lemma filter_nil_existsb {A : Type} (f : A -> bool) (l : list A) :
  List.filter f l = [] -> existsb f l = false.
Proof.
  induction l as [|x l IH]; [reflexivity|]. cbn [List.filter existsb].
  destruct (f x); [discriminate | exact IH].
Qed.

Lemma hourCount_first (l : LoginAttempt) (logins : list LoginAttempt) :
  (0 < hourCount LocalTime (l :: logins)
                 (getHours LocalTime (timestamp l)))%nat.
Proof.
  unfold hourCount. cbn [List.filter]. rewrite Z.eqb_refl. simpl. lia.
Qed.

Lemma hourCounts_key (logins : list LoginAttempt) (h : Z) :
  In h (Object_keys (countLoginsPerHour LocalTime logins ∅))
  <-> (0 < hourCount LocalTime logins h)%nat.
Proof.
  rewrite Object_keys_In, hourCounts_lookup.
  destruct (hourCount LocalTime logins h); split.
  - intros [c Hc]. discriminate.
  - lia.
  - lia.
  - intros _. now eexists.
Qed.

(** The hour of a login is unusual exactly when it is not typical. *)
Lemma isUnusualLoginTime_typical (logins : list LoginAttempt) (t : Z) :
  (0 < length logins)%nat ->
  isUnusualLoginTime LocalTime t
                     (calculateTypicalLoginHours LocalTime logins)
  = negb (isTypicalHour LocalTime logins (getHours LocalTime t)).
Proof.
  intros Hpos. unfold calculateTypicalLoginHours. cbv zeta.
  rewrite (filter_ext _ (reachesTenPercent LocalTime logins))
    by (intros h; now apply typical_test).
  unfold isTypicalHour, isUnusualLoginTime, getHourOfDay.
  destruct (List.filter (reachesTenPercent LocalTime logins) (seqZ 0 24))
    as [|x typical] eqn:Hfilter.
  - rewrite (filter_nil_existsb _ _ Hfilter). cbn [length Nat.eqb].
    destruct logins as [|l logins]; [simpl in Hpos; lia|].
    pose proof (proj2 (hourCounts_key (l :: logins) _)
                      (hourCount_first l logins)) as Hkey.
    destruct (Object_keys _) as [|k keys] eqn:Hkeys; [contradiction|].
    cbn [length Nat.eqb]. rewrite <- Hkeys. f_equal.
    apply eq_true_iff_eq.
    now rewrite existsb_Z_eqb, hourCounts_key, Nat.ltb_lt.
  - cbn [length Nat.eqb]. rewrite <- Hfilter.
    assert (Hex : existsb (reachesTenPercent LocalTime logins) (seqZ 0 24)
                  = true).
    { apply existsb_exists. exists x.
      apply filter_In. rewrite Hfilter. now left. }
    rewrite Hex. f_equal. apply eq_true_iff_eq.
    rewrite existsb_Z_eqb, filter_In, In_seqZ_24.
    pose proof (getHours_range t). tauto.
Qed.

Lemma calculateUnusualTimeRisk_typical
    (attempt : LoginAttempt) (profile : UserProfile) :
  let successes := List.filter success (loginHistory profile) in
  fst (calculateUnusualTimeRisk LocalTime attempt profile)
  = if (length successes <? 10)%nat then Fin 0
    else if isTypicalHour LocalTime successes
                          (getHours LocalTime (timestamp attempt))
         then Fin 0 else Fin 35.
Proof.
  cbv zeta. unfold calculateUnusualTimeRisk.
  destruct (length (List.filter success (loginHistory profile)) <? 10)%nat
    eqn:Hlen; [reflexivity|].
  apply Nat.ltb_ge in Hlen.
  rewrite isUnusualLoginTime_typical by lia.
  now destruct (isTypicalHour _ _ _).
Qed.

Lemma analyzeLogin_unusualTime (this : Detector) (attempt : LoginAttempt) :
  let successes :=
    successesOnRecord (profileOf this (userId attempt)) attempt in
  unusualTime (factors (fst (analyze this attempt)))
  = if (length successes <? 10)%nat then Fin 0
    else if isTypicalHour LocalTime successes
                          (getHours LocalTime (timestamp attempt))
         then Fin 0 else Fin 35.
Proof.
  cbv zeta. rewrite analyzeLogin_factors, riskFactors_eq. cbv zeta.
  cbn [fst unusualTime]. rewrite calculateUnusualTimeRisk_typical. cbv zeta.
  destruct (locationChange_keeps attempt
              (recordAttempt attempt (profileOf this (userId attempt))))
    as (Hhist & _ & _).
  now rewrite Hhist.
Qed.

Lemma hourCount_app (l1 l2 : list LoginAttempt) (h : Z) :
  hourCount LocalTime (l1 ++ l2) h
  = (hourCount LocalTime l1 h + hourCount LocalTime l2 h)%nat.
Proof. unfold hourCount. now rewrite List.filter_app, length_app. Qed.

Lemma hourCount_all (logins : list LoginAttempt) (h0 h : Z) :
  Forall (fun l => getHours LocalTime (timestamp l) = h0) logins ->
  hourCount LocalTime logins h
  = if (h0 =? h)%Z then length logins else 0%nat.
Proof.
  unfold hourCount. induction 1 as [|l logins Hl _ IH].
  - now destruct (h0 =? h)%Z.
  - cbn [List.filter]. rewrite Hl.
    destruct (h0 =? h)%Z; [cbn [length]; now rewrite IH | exact IH].
Qed.

Lemma Forall_filter_success (P : LoginAttempt -> Prop) (l : list LoginAttempt) :
  Forall (fun a => success a = true -> P a) l ->
  Forall P (List.filter success l).
Proof.
  induction 1 as [|a l Ha _ IH]; [constructor|]. cbn [List.filter].
  destruct (success a) eqn:Hs; [constructor; auto | exact IH].
Qed.

(** C4: the unusual-time factor of an analyzed attempt is 0 when fewer than
    10 successful logins are on record in the history (the current attempt
    included); otherwise it is 35 exactly when the hour of the attempt is
    not typical, and 0 when it is, an hour being typical when it accounts
    for at least 10% of the successful logins or, if no hour does, when it
    has any successful login. After 10 successful logins, all at hour 10,
    an attempt at hour 3 has the factor 35. *)
Theorem unusualTime_typical_hours
    (this : Detector) (attempt : LoginAttempt) :
  let prior := profileOf this (userId attempt) in
  let successes := successesOnRecord prior attempt in
  let hour := getHours LocalTime (timestamp attempt) in
  let factor := unusualTime (factors (fst (analyze this attempt))) in
  ((length successes < 10)%nat -> factor = Fin 0)
  /\ ((10 <= length successes)%nat ->
      (factor = Fin 35 <-> isTypicalHour LocalTime successes hour = false)
      /\ (factor = Fin 0 <-> isTypicalHour LocalTime successes hour = true))
  /\ (length (List.filter success (loginHistory prior)) = 10%nat ->
      Forall (fun l => success l = true ->
                       getHours LocalTime (timestamp l) = 10)
             (loginHistory prior) ->
      hour = 3 ->
      factor = Fin 35).
Proof.
  cbv zeta. rewrite analyzeLogin_unusualTime. cbv zeta.
  set (prior := profileOf this (userId attempt)).
  split; [|split].
  - intros Hlt. apply Nat.ltb_lt in Hlt. now rewrite Hlt.
  - intros Hge. apply Nat.ltb_ge in Hge. rewrite Hge.
    destruct (isTypicalHour _ _ _); split; split; intros H;
      try reflexivity; discriminate.
  - intros Hten Hall Hhour. rewrite Hhour.
    apply Forall_filter_success in Hall.
    unfold successesOnRecord. rewrite List.filter_app.
    set (earlier := List.filter success (loginHistory prior)) in *.
    assert (Hcount : forall h,
               hourCount LocalTime (earlier ++ List.filter success [attempt]) h
               = ((if (10 =? h)%Z then 10 else 0)
                  + hourCount LocalTime (List.filter success [attempt]) h)%nat).
    { intros h. rewrite hourCount_app, (hourCount_all _ _ _ Hall), Hten.
      reflexivity. }
    assert (Hlen' : (10 <= length (earlier ++ List.filter success [attempt]))%nat)
      by (rewrite length_app, Hten; lia).
    apply Nat.ltb_ge in Hlen' as Hlt. rewrite Hlt.
    unfold isTypicalHour.
    assert (Hex : existsb
                    (reachesTenPercent LocalTime
                       (earlier ++ List.filter success [attempt]))
                    (seqZ 0 24) = true).
    { apply existsb_exists. exists 10. split; [apply In_seqZ_24; lia|].
      unfold reachesTenPercent. rewrite Hcount. apply Nat.leb_le.
      change (10 =? 10)%Z with true. rewrite length_app, Hten.
      cbn [List.filter]. destruct (success attempt); cbn [length]; lia. }
    rewrite Hex. unfold reachesTenPercent. rewrite Hcount.
    change (10 =? 3)%Z with false. cbn [Nat.add].
    assert (Hleb : (length (earlier ++ List.filter success [attempt])
                    <=? 10 * hourCount LocalTime
                               (List.filter success [attempt]) 3)%nat = false).
    { apply Nat.leb_gt. rewrite length_app, Hten. unfold hourCount.
      cbn [List.filter].
      destruct (success attempt); cbn [List.filter length];
        [destruct (_ =? 3)%Z; cbn [length]|]; lia. }
    now rewrite Hleb.
Qed.

(** ** Repeated analysis *)

Lemma analyzeLogin_config (this : Detector) (attempt : LoginAttempt) :
  config (snd (analyze this attempt)) = config this.
Proof. now rewrite analyzeLogin_eq. Qed.

Lemma analyzeLogin_failedAttempts (this : Detector) (attempt : LoginAttempt) :
  failedAttempts (profileOf (snd (analyze this attempt)) (userId attempt))
  = failuresOnRecord (profileOf this (userId attempt)) attempt.
Proof.
  unfold profileOf at 1. rewrite analyzeLogin_profile, riskFactors_eq.
  cbv zeta. cbn [default snd id].
  destruct (unusualTime_keeps attempt
              (snd (calculateLocationChangeRisk geoip_lookup attempt
                      (recordAttempt attempt
                         (profileOf this (userId attempt))))))
    as (_ & -> & _).
  destruct (locationChange_keeps attempt
              (recordAttempt attempt (profileOf this (userId attempt))))
    as (_ & -> & _).
  apply recordAttempt_failedAttempts.
Qed.

Lemma analyzeLogin_bruteForce_score
    (this : Detector) (attempt : LoginAttempt) :
  bruteForce (factors (fst (analyze this attempt)))
  = bruteForceScore
      (countFailures
         (withinFullMinutes (bruteForceWindow (config this)))
         (failuresOnRecord (profileOf this (userId attempt)) attempt)
         (timestamp attempt))
      (bruteForceThreshold (config this)).
Proof.
  rewrite analyzeLogin_bruteForce, calculateBruteForceRisk_score.
  now rewrite recordAttempt_failedAttempts.
Qed.

(** C8: [analyzeLogin] is not idempotent on the state of the detector.
    Starting from a new detector, a failed attempt analyzed over and over
    is assessed differently by the third call and by the fourth, two calls
    in succession with the same attempt: the fourth one counts the failure
    that the third one has appended to the record. *)
Theorem analyzeLogin_not_idempotent :
  exists (this : Detector) (attempt : LoginAttempt),
    this = snd (analyze (snd (analyze (constructor None) attempt)) attempt)
    /\ fst (analyze this attempt)
       <> fst (analyze (snd (analyze this attempt)) attempt).
Proof.
  set (attempt := {| userId := "mallory"; timestamp := 0;
                     ipAddress := "203.0.113.7"; success := false;
                     userAgent := None; sessionId := None |}).
  exists (snd (analyze (snd (analyze (constructor None) attempt)) attempt)),
    attempt.
  split; [reflexivity|]. intros Heq.
  apply (f_equal (fun a => bruteForce (factors a))) in Heq.
  rewrite !analyzeLogin_bruteForce_score in Heq.
  rewrite !analyzeLogin_config in Heq.
  change (userId attempt) with "mallory" in Heq.
  pose proof (analyzeLogin_failedAttempts) as Hrec.
  specialize (Hrec (snd (analyze (snd (analyze (constructor None) attempt))
                                 attempt)) attempt) as H3.
  specialize (Hrec (snd (analyze (constructor None) attempt)) attempt) as H2.
  specialize (Hrec (constructor None) attempt) as H1.
  change (userId attempt) with "mallory" in H1, H2, H3.
  unfold failuresOnRecord in *. rewrite H3, H2, H1 in Heq.
  vm_compute in Heq. discriminate Heq.
Qed.

End AnalyzeLogin.

(** ** Scenarios in the sample environment *)

(** C1: the first attempt ever analyzed for alice comes from an address that
    resolves to New York; [analyzeLogin] records New York as a typical
    location and returns a location-change factor of 40, not 0. *)
Theorem first_login_locationChange_is_40 :
  userProfiles Sample.fresh !! "alice" = None
  /\ getLocationFromIP Sample.geoip (ipAddress Sample.alice_first)
     = Some Sample.inNewYork
  /\ locationChange
       (factors (fst (Sample.analyze Sample.fresh Sample.alice_first)))
     = Fin 40
  /\ (typicalLocations
        <$> userProfiles (snd (Sample.analyze Sample.fresh Sample.alice_first))
            !! "alice")
     = Some [Sample.inNewYork].
Proof. vm_compute. repeat split. Qed.


(** C3 as stated fails: four failures of carol, and a fifth one thirty
    minutes and thirty seconds later, with a window of 30 minutes and a
    threshold of 5. Within 30 minutes of the fifth there is the fifth alone,
    which scores 0; the engine counts all five, the four being 30 full
    minutes away, and scores 70. *)
Lemma bruteForce_window_counterexample :
  bruteForceScore
    (countFailures
       (withinMinutes (bruteForceWindow (config Sample.after_carol_failures)))
       (failuresOnRecord (profileOf Sample.after_carol_failures "carol")
                         Sample.carol_late)
       (timestamp Sample.carol_late))
    (bruteForceThreshold (config Sample.after_carol_failures))
  = Fin 0
  /\ num_eq
       (bruteForce
          (factors
             (fst (Sample.analyze Sample.after_carol_failures
                                  Sample.carol_late))))
       (Fin 70)
  /\ ~ num_eq
        (bruteForce
           (factors
              (fst (Sample.analyze Sample.after_carol_failures
                                   Sample.carol_late))))
        (bruteForceScore
           (countFailures
              (withinMinutes
                 (bruteForceWindow (config Sample.after_carol_failures)))
              (failuresOnRecord (profileOf Sample.after_carol_failures "carol")
                                Sample.carol_late)
              (timestamp Sample.carol_late))
           (bruteForceThreshold (config Sample.after_carol_failures))).
Proof.
  vm_compute. repeat split. intros H. discriminate H.
Qed.

(** C6 as stated fails: with a brute-force threshold of 0, the first login
    of alice has no failure on record, the ratio is [0/0], and the
    brute-force factor and the overall risk are [NaN]. *)
Lemma overallRisk_zero_threshold_counterexample :
  bruteForceThreshold (config Sample.zero_threshold) = 0%Q
  /\ overallRisk (fst (Sample.analyze Sample.zero_threshold Sample.alice_first))
     = NaN
  /\ ~ (exists z : Z,
          overallRisk
            (fst (Sample.analyze Sample.zero_threshold Sample.alice_first))
          = of_Z z
          /\ 0 <= z <= 100).
Proof.
  split; [reflexivity|]. split; [vm_compute; reflexivity|].
  intros [z [H _]]. vm_compute in H. discriminate H.
Qed.

(** ** The theorems at concrete inputs *)


Lemma unusualTime_typical_hours_witness :
  (length (List.filter success
             (loginHistory (profileOf Sample.after_dana_logins "dana")))
   = 10%nat
   /\ Forall (fun l => success l = true ->
                       getHours Sample.utc (timestamp l) = 10)
             (loginHistory (profileOf Sample.after_dana_logins "dana"))
   /\ getHours Sample.utc (timestamp Sample.dana_at_three) = 3)
  /\ unusualTime
       (factors (fst (Sample.analyze Sample.after_dana_logins
                                     Sample.dana_at_three)))
     = Fin 35.
Proof.
  assert (Hten : length (List.filter success
                           (loginHistory
                              (profileOf Sample.after_dana_logins "dana")))
                 = 10%nat) by (vm_compute; reflexivity).
  assert (Hall : Forall (fun l => success l = true ->
                                  getHours Sample.utc (timestamp l) = 10)
                        (loginHistory
                           (profileOf Sample.after_dana_logins "dana"))).
  { assert (Hhist : loginHistory (profileOf Sample.after_dana_logins "dana")
                  = Sample.dana_logins) by (vm_compute; reflexivity).
  rewrite Hhist. unfold Sample.dana_logins.
  apply Forall_forall. intros l Hin _.
  apply list_elem_of_In, in_map_iff in Hin.
  destruct Hin as (day & <- & Hday). cbn [timestamp Sample.attempt].
  apply list_elem_of_In, elem_of_seqZ in Hday.
  unfold getHours, Sample.utc, Sample.hour.
  replace (day * 24 * 3600000 + 10 * 3600000)
    with (10 * 3600000 + (24 * day) * 3600000) by lia.
  rewrite Z.div_add by lia. change (10 * 3600000 / 3600000) with 10.
  replace (10 + 24 * day) with (10 + day * 24) by lia.
  rewrite Z.mod_add by lia. reflexivity. }
  assert (Hthree : getHours Sample.utc (timestamp Sample.dana_at_three) = 3)
    by (vm_compute; reflexivity).
  split; [repeat split; assumption|].
  exact (proj2 (proj2 (unusualTime_typical_hours
                         Sample.geoip Sample.distance Sample.utc
                         Sample.after_dana_logins Sample.dana_at_three))
               Hten Hall Hthree).
Defined.

Lemma overallRisk_in_range_witness :
  ((0 <= maxTravelSpeed (config Sample.fresh))%Q
   /\ (0 < bruteForceThreshold (config Sample.fresh))%Q)
  /\ exists z : Z,
      overallRisk (fst (Sample.analyze Sample.fresh Sample.alice_first))
      = of_Z z
      /\ 0 <= z <= 100.
Proof.
  assert (Hspeed : (0 <= maxTravelSpeed (config Sample.fresh))%Q)
    by (vm_compute; discriminate).
  assert (Hthreshold : (0 < bruteForceThreshold (config Sample.fresh))%Q)
    by (vm_compute; reflexivity).
  split; [split; assumption|].
  apply (overallRisk_in_range Sample.geoip Sample.distance Sample.utc
           Sample.fresh Sample.alice_first Hspeed Hthreshold).
Defined.

Lemma riskLevel_deterministic_monotone_witness :
  (strictly_increasing (riskThresholds (config Sample.fresh))
   /\ num_le (Fin 40) (Fin 90) = true)
  /\ level_le (determineRiskLevel Sample.fresh (Fin 40))
              (determineRiskLevel Sample.fresh (Fin 90)).
Proof.
  assert (Hinc : strictly_increasing (riskThresholds (config Sample.fresh)))
    by (vm_compute; repeat split).
  assert (Hle : num_le (Fin 40) (Fin 90) = true) by reflexivity.
  split; [split; assumption|].
  apply (riskLevel_deterministic_monotone Sample.fresh (Fin 40) (Fin 90)
           Hinc Hle).
Defined.

Lemma typicalLocations_stay_deduplicated_witness :
  deduplicated (profileOf Sample.after_alice_first "alice")
  /\ deduplicated
       (profileOf (snd (Sample.analyze Sample.after_alice_first
                                       Sample.alice_in_chicago))
                  "alice").
Proof.
  assert (Hdedup : deduplicated (profileOf Sample.after_alice_first "alice")).
  { vm_compute. constructor; [apply not_elem_of_nil | constructor]. }
  split; [exact Hdedup|].
  exact (typicalLocations_stay_deduplicated
           Sample.geoip Sample.distance Sample.utc
           Sample.after_alice_first Sample.alice_in_chicago "alice" Hdedup).
Defined.

(** * Further properties of the engine *)

Section Coverage.

Variable geoip_lookup : string -> option GeoipRecord.
Variable calculateDistance : Q -> Q -> Q -> Q -> Q.
Variable LocalTime : Z -> Z.

Local Abbreviation analyze :=
  (analyzeLogin geoip_lookup calculateDistance LocalTime).
Local Abbreviation analyzeAll :=
  (analyzeMultiple geoip_lookup calculateDistance LocalTime).
Local Abbreviation riskFactors :=
  (calculateRiskFactors geoip_lookup calculateDistance LocalTime).
Local Abbreviation locate := (getLocationFromIP geoip_lookup).

(** ** The profile after a call *)

Lemma stored_profile (this : Detector) (attempt : LoginAttempt) :
  profileOf (snd (analyze this attempt)) (userId attempt)
  = snd (riskFactors this attempt
           (recordAttempt attempt (profileOf this (userId attempt)))).
Proof.
  unfold profileOf at 1.
  now rewrite (analyzeLogin_profile geoip_lookup calculateDistance LocalTime).
Qed.

Lemma other_profile (this : Detector) (attempt : LoginAttempt) (uid : string) :
  uid <> userId attempt ->
  profileOf (snd (analyze this attempt)) uid = profileOf this uid.
Proof.
  intros Hne. unfold profileOf.
  now rewrite (analyzeLogin_other_profile geoip_lookup calculateDistance
                 LocalTime this attempt uid Hne).
Qed.

(** What one call does to the profile of the user of the attempt. *)
Lemma analyzeLogin_step (this : Detector) (attempt : LoginAttempt) :
  let before := profileOf this (userId attempt) in
  let after := profileOf (snd (analyze this attempt)) (userId attempt) in
  profile_userId after = profile_userId before
  /\ loginHistory after = loginHistory before ++ [attempt]
  /\ failedAttempts after
     = failedAttempts before ++ (if success attempt then [] else [attempt])
  /\ lastSuccessfulLogin after
     = (if success attempt then Some attempt
        else lastSuccessfulLogin before)
  /\ typicalLocations after
     = typicalLocations
         (snd (calculateLocationChangeRisk geoip_lookup attempt
                 (recordAttempt attempt before))).
Proof.
  cbv zeta. rewrite stored_profile.
  rewrite (riskFactors_eq geoip_lookup calculateDistance LocalTime).
  cbv zeta. cbn [snd].
  set (p := profileOf this (userId attempt)).
  unfold calculateUnusualTimeRisk.
  assert (Hlc : forall q,
             q = snd (calculateLocationChangeRisk geoip_lookup attempt
                        (recordAttempt attempt p)) ->
             profile_userId q = profile_userId p
             /\ loginHistory q = loginHistory p ++ [attempt]
             /\ failedAttempts q
                = failedAttempts p ++ (if success attempt then [] else [attempt])
             /\ lastSuccessfulLogin q
                = (if success attempt then Some attempt
                   else lastSuccessfulLogin p)).
  { intros q ->.
    rewrite (locationChange_recorded geoip_lookup).
    destruct (locate (ipAddress attempt)) as [loc|];
      [destruct (existsb _ _)|]; cbn [snd];
      (repeat split; try reflexivity);
      cbn [failedAttempts recordAttempt push_typicalLocation];
      destruct (success attempt); now rewrite ?app_nil_r. }
  specialize (Hlc _ eq_refl). destruct Hlc as (H1 & H2 & H3 & H4).
  destruct (_ <? _)%nat; [|destruct (isUnusualLoginTime _ _ _)];
    cbn [snd set_typicalLoginHours profile_userId loginHistory failedAttempts
         lastSuccessfulLogin typicalLocations];
    repeat split; assumption.
Qed.

(** ** Batches *)

Lemma analyzeMultiple_cons
    (this : Detector) (attempt : LoginAttempt) (rest : list LoginAttempt) :
  analyzeAll this (attempt :: rest)
  = (fst (analyze this attempt)
       :: fst (analyzeAll (snd (analyze this attempt)) rest),
     snd (analyzeAll (snd (analyze this attempt)) rest)).
Proof.
  cbn [analyzeMultiple]. destruct (analyze this attempt) as [r this'].
  cbn [fst snd]. now destruct (analyzeAll this' rest).
Qed.

(** X1: a batch is the sequence of its calls. Analyzing a concatenation of
    attempts yields the assessments of the first part followed by those of
    the second part analyzed from the state the first part leaves, and ends
    in the state of the second part; and the assessments of a batch are one
    per attempt, in the order of the attempts, each with the user and the
    timestamp of its attempt. *)
Theorem analyzeMultiple_in_sequence
    (this : Detector) (first second : list LoginAttempt) :
  analyzeAll this (first ++ second)
  = (fst (analyzeAll this first)
       ++ fst (analyzeAll (snd (analyzeAll this first)) second),
     snd (analyzeAll (snd (analyzeAll this first)) second))
  /\ map assessmentKey (fst (analyzeAll this first)) = map attemptKey first.
Proof.
  split.
  - revert this. induction first as [|a first IH]; intros this.
    + cbn [app analyzeMultiple fst snd].
      now destruct (analyzeAll this second).
    + rewrite <- app_comm_cons, !analyzeMultiple_cons, IH. reflexivity.
  - revert this. induction first as [|a first IH]; intros this;
      [reflexivity|].
    rewrite analyzeMultiple_cons. cbn [fst map]. rewrite IH. f_equal.
    now rewrite (analyzeLogin_eq geoip_lookup calculateDistance LocalTime).
Qed.

Lemma attemptsOf_cons
    (uid : string) (a : LoginAttempt) (rest : list LoginAttempt) :
  attemptsOf uid (a :: rest)
  = if String.eqb (userId a) uid then a :: attemptsOf uid rest
    else attemptsOf uid rest.
Proof. reflexivity. Qed.

Lemma lastSuccessOf_cons (a : LoginAttempt) (rest : list LoginAttempt) :
  lastSuccessOf (a :: rest)
  = match lastSuccessOf rest with
    | Some b => Some b
    | None => if success a then Some a else None
    end.
Proof.
  unfold lastSuccessOf. cbn [List.filter].
  destruct (success a); [|now destruct (list.last _)].
  destruct (List.filter success rest) as [|b l]; [reflexivity|].
  rewrite last_cons. now destruct (list.last (b :: l)).
Qed.

(** The profile of a user through a batch, from any state. *)
Lemma analyzeMultiple_profile
    (this : Detector) (attempts : list LoginAttempt) (uid : string) :
  let before := profileOf this uid in
  let after := profileOf (snd (analyzeAll this attempts)) uid in
  let mine := attemptsOf uid attempts in
  profile_userId after = profile_userId before
  /\ loginHistory after = loginHistory before ++ mine
  /\ failedAttempts after = failedAttempts before ++ failuresOf mine
  /\ lastSuccessfulLogin after
     = match lastSuccessOf mine with
       | Some a => Some a
       | None => lastSuccessfulLogin before
       end.
Proof.
  cbv zeta. revert this.
  induction attempts as [|a rest IH]; intros this.
  - cbn [analyzeMultiple snd attemptsOf List.filter failuresOf lastSuccessOf].
    now rewrite !app_nil_r.
  - rewrite analyzeMultiple_cons. cbn [snd].
    destruct (IH (snd (analyze this a))) as (H1 & H2 & H3 & H4).
    rewrite H1, H2, H3, H4, attemptsOf_cons. clear IH H1 H2 H3 H4.
    destruct (String.eqb_spec (userId a) uid) as [<-|Hne].
    + destruct (analyzeLogin_step this a) as (S1 & S2 & S3 & S4 & _).
      rewrite S1, S2, S3, S4, lastSuccessOf_cons.
      unfold failuresOf. cbn [List.filter].
      repeat split.
      * now rewrite <- app_assoc.
      * destruct (success a); cbn [negb app]; now rewrite <- ?app_assoc.
      * destruct (lastSuccessOf _); [reflexivity|]. now destruct (success a).
    + rewrite other_profile by congruence. repeat split.
Qed.

Lemma analyzeLogin_lookup_None
    (this : Detector) (attempt : LoginAttempt) (uid : string) :
  userProfiles (snd (analyze this attempt)) !! uid = None
  <-> userProfiles this !! uid = None /\ uid <> userId attempt.
Proof.
  destruct (decide (uid = userId attempt)) as [->|Hne].
  - rewrite (analyzeLogin_profile geoip_lookup calculateDistance LocalTime).
    split; [discriminate | tauto].
  - rewrite (analyzeLogin_other_profile geoip_lookup calculateDistance
               LocalTime this attempt uid Hne). tauto.
Qed.

Lemma analyzeMultiple_lookup_None
    (this : Detector) (attempts : list LoginAttempt) (uid : string) :
  userProfiles (snd (analyzeAll this attempts)) !! uid = None
  <-> userProfiles this !! uid = None /\ attemptsOf uid attempts = [].
Proof.
  revert this. induction attempts as [|a rest IH]; intros this.
  - cbn. tauto.
  - rewrite analyzeMultiple_cons. cbn [snd].
    rewrite IH, analyzeLogin_lookup_None, attemptsOf_cons.
    destruct (String.eqb_spec (userId a) uid) as [<-|Hne].
    + split; [tauto | intros [_ H]; discriminate].
    + split; [tauto|]. intros [H1 H2]. repeat split; congruence.
Qed.

Lemma analyzeLogin_keyed (this : Detector) (attempt : LoginAttempt) :
  keyedByUserId this -> keyedByUserId (snd (analyze this attempt)).
Proof.
  intros Hkeyed uid p Hp.
  destruct (decide (uid = userId attempt)) as [->|Hne].
  - destruct (analyzeLogin_step this attempt) as (S1 & _).
    unfold profileOf at 1 in S1. rewrite Hp in S1. cbn [default] in S1.
    unfold id in S1. rewrite S1. unfold profileOf.
    destruct (userProfiles this !! userId attempt) as [q|] eqn:Hq;
      [now apply Hkeyed | reflexivity].
  - rewrite (analyzeLogin_other_profile geoip_lookup calculateDistance
               LocalTime this attempt uid Hne) in Hp.
    now apply Hkeyed.
Qed.

Lemma analyzeMultiple_keyed (this : Detector) (attempts : list LoginAttempt) :
  keyedByUserId this -> keyedByUserId (snd (analyzeAll this attempts)).
Proof.
  revert this. induction attempts as [|a rest IH]; intros this Hkeyed;
    [exact Hkeyed|].
  rewrite analyzeMultiple_cons. cbn [snd].
  now apply IH, analyzeLogin_keyed.
Qed.

Lemma analyzeMultiple_config (this : Detector) (attempts : list LoginAttempt) :
  config (snd (analyzeAll this attempts)) = config this.
Proof.
  revert this. induction attempts as [|a rest IH]; intros this;
    [reflexivity|].
  rewrite analyzeMultiple_cons. cbn [snd]. rewrite IH.
  apply (analyzeLogin_config geoip_lookup calculateDistance LocalTime).
Qed.

(** X2: a batch only appends to the profiles. From any state, after
    [analyzeMultiple] the login history of a user is the history before
    followed by the attempts of that user in the batch, in their order; the
    failed attempts are those before followed by the failed ones among them;
    the last successful login is the last successful one among them, or the
    one before if there is none; and the profile keeps its [userId]. *)
Theorem analyzeMultiple_appends_to_profiles
    (this : Detector) (attempts : list LoginAttempt) (uid : string) :
  let before := profileOf this uid in
  let after := profileOf (snd (analyzeAll this attempts)) uid in
  let mine := attemptsOf uid attempts in
  profile_userId after = profile_userId before
  /\ loginHistory after = loginHistory before ++ mine
  /\ failedAttempts after = failedAttempts before ++ failuresOf mine
  /\ lastSuccessfulLogin after
     = match lastSuccessOf mine with
       | Some a => Some a
       | None => lastSuccessfulLogin before
       end.
Proof. exact (analyzeMultiple_profile this attempts uid). Qed.

Lemma filter_partition_length {A : Type} (f : A -> bool) (l : list A) :
  length l
  = (length (List.filter f l)
     + length (List.filter (fun x => negb (f x)) l))%nat.
Proof.
  induction l as [|x l IH]; [reflexivity|]. cbn [List.filter length].
  destruct (f x); cbn [negb length]; lia.
Qed.

(** X3: the profiles of a detector that started empty replay the attempts
    it has analyzed. After any batch on a new detector, a user has a profile
    exactly when the batch holds an attempt of that user; the profile sits
    under its own [userId], its login history is the attempts of the user in
    the order of the batch, its failed attempts are the failed ones of the
    history, its last successful login is the last successful one of the
    history, and the successful and the failed attempts add up to the
    history. *)
Theorem new_detector_replays_attempts
    (c : option PartialDetectorConfig) (attempts : list LoginAttempt)
    (uid : string) :
  let this := snd (analyzeAll (constructor c) attempts) in
  match getUserProfileData this uid with
  | None => attemptsOf uid attempts = []
  | Some profile =>
      attemptsOf uid attempts <> []
      /\ profile_userId profile = uid
      /\ loginHistory profile = attemptsOf uid attempts
      /\ failedAttempts profile = failuresOf (loginHistory profile)
      /\ lastSuccessfulLogin profile = lastSuccessOf (loginHistory profile)
      /\ length (loginHistory profile)
         = (length (List.filter success (loginHistory profile))
            + length (failedAttempts profile))%nat
  end.
Proof.
  cbv zeta. unfold getUserProfileData.
  pose proof (analyzeMultiple_lookup_None (constructor c) attempts uid)
    as Hnone.
  pose proof (analyzeMultiple_profile (constructor c) attempts uid) as Hp.
  cbv zeta in Hp. unfold profileOf in Hp.
  destruct (userProfiles (snd (analyzeAll (constructor c) attempts)) !! uid)
    as [p|] eqn:Hlookup.
  - replace (userProfiles (constructor c) !! uid)
      with (@None UserProfile) in Hp by (symmetry; apply lookup_empty).
    cbn [default emptyProfile profile_userId loginHistory failedAttempts
         lastSuccessfulLogin app] in Hp. unfold id in Hp.
    destruct Hp as (H1 & H2 & H3 & H4).
    assert (Hfail : failedAttempts p = failuresOf (loginHistory p))
      by now rewrite H2.
    repeat split; try assumption.
    + intros Hempty.
      assert (Hn : @None UserProfile = None) by reflexivity.
      destruct Hnone as [_ Hnone].
      discriminate Hnone. split; [apply lookup_empty | exact Hempty].
    + rewrite H4, H2. now destruct (lastSuccessOf _).
    + rewrite Hfail. apply filter_partition_length.
  - now apply Hnone.
Qed.

(** ** Users do not interfere *)

Lemma analyzeLogin_other_user
    (this : Detector) (a b : LoginAttempt) :
  userId a <> userId b ->
  analyze (snd (analyze this b)) a
  = (fst (analyze this a),
     {| config := config this;
        userProfiles :=
          <[userId a := profileOf (snd (analyze this a)) (userId a)]>
            (userProfiles (snd (analyze this b))) |}).
Proof.
  intros Hne.
  rewrite (analyzeLogin_eq geoip_lookup calculateDistance LocalTime
             (snd (analyze this b)) a).
  cbv zeta. rewrite (other_profile this b (userId a) Hne).
  rewrite stored_profile.
  rewrite (analyzeLogin_eq geoip_lookup calculateDistance LocalTime this a).
  cbv zeta. cbn [fst snd].
  rewrite (analyzeLogin_eq geoip_lookup calculateDistance LocalTime this b).
  cbv zeta. cbn [fst snd config userProfiles]. reflexivity.
Qed.

(** X4: the analyses of different users do not interfere. For two attempts
    of different users, the assessment of each is the same whether the
    other has been analyzed before or not, and the detector ends in the
    same state in either order. *)
Theorem analyzeLogin_users_independent
    (this : Detector) (a b : LoginAttempt) (Hne : userId a <> userId b) :
  fst (analyze (snd (analyze this b)) a) = fst (analyze this a)
  /\ fst (analyze (snd (analyze this a)) b) = fst (analyze this b)
  /\ snd (analyze (snd (analyze this a)) b)
     = snd (analyze (snd (analyze this b)) a).
Proof.
  assert (Hne' : userId b <> userId a) by congruence.
  rewrite (analyzeLogin_other_user this a b Hne).
  rewrite (analyzeLogin_other_user this b a Hne').
  cbn [fst snd]. repeat split. f_equal.
  rewrite !stored_profile.
  rewrite !(analyzeLogin_eq geoip_lookup calculateDistance LocalTime).
  cbv zeta. cbn [snd userProfiles].
  now apply insert_insert_ne.
Qed.

(** ** Typical locations *)

Lemma locationChange_step (this : Detector) (attempt : LoginAttempt) :
  let before := profileOf this (userId attempt) in
  let after := profileOf (snd (analyze this attempt)) (userId attempt) in
  let factor := locationChange (factors (fst (analyze this attempt))) in
  match locate (ipAddress attempt) with
  | None =>
      factor = Fin 0 /\ typicalLocations after = typicalLocations before
  | Some loc =>
      if isTypicalLocation loc before
      then factor = Fin 0
           /\ typicalLocations after = typicalLocations before
      else factor = Fin 40
           /\ typicalLocations after = typicalLocations before ++ [loc]
  end.
Proof.
  cbv zeta.
  destruct (analyzeLogin_step this attempt) as (_ & _ & _ & _ & ->).
  rewrite (analyzeLogin_factors geoip_lookup calculateDistance LocalTime).
  rewrite (riskFactors_eq geoip_lookup calculateDistance LocalTime).
  cbv zeta. cbn [fst locationChange].
  rewrite (locationChange_recorded geoip_lookup).
  unfold isTypicalLocation.
  destruct (locate (ipAddress attempt)) as [loc|]; [|now split].
  now destruct (existsb _ _).
Qed.

(** X5: the location-change factor of [analyzeLogin] and what it records.
    When the address of the attempt does not resolve, or resolves to a
    location whose country and city are those of a typical location of the
    user, the factor is 0 and the typical locations stay as they are;
    otherwise, the first attempt of a user included, the factor is 40 and
    the location is appended to the typical locations. *)
Theorem analyzeLogin_locationChange
    (this : Detector) (attempt : LoginAttempt) :
  let before := profileOf this (userId attempt) in
  let after := profileOf (snd (analyze this attempt)) (userId attempt) in
  let factor := locationChange (factors (fst (analyze this attempt))) in
  match locate (ipAddress attempt) with
  | None =>
      factor = Fin 0 /\ typicalLocations after = typicalLocations before
  | Some loc =>
      if isTypicalLocation loc before
      then factor = Fin 0
           /\ typicalLocations after = typicalLocations before
      else factor = Fin 40
           /\ typicalLocations after = typicalLocations before ++ [loc]
  end.
Proof. exact (locationChange_step this attempt). Qed.

Lemma sameCityCountry_refl (loc : GeoLocation) :
  sameCityCountry loc loc = true.
Proof. unfold sameCityCountry. now rewrite !String.eqb_refl. Qed.

Lemma isTypicalLocation_key (loc loc' : GeoLocation) (profile : UserProfile) :
  locationKey loc' = locationKey loc ->
  isTypicalLocation loc' profile = isTypicalLocation loc profile.
Proof.
  intros Hkey. unfold locationKey in Hkey. injection Hkey as Hc Hy.
  unfold isTypicalLocation, sameCityCountry. now rewrite Hc, Hy.
Qed.

(** The typical locations of a user only grow at the end. *)
Lemma typicalLocations_grow_step
    (this : Detector) (attempt : LoginAttempt) (uid : string) :
  exists more : list GeoLocation,
    typicalLocations (profileOf (snd (analyze this attempt)) uid)
    = typicalLocations (profileOf this uid) ++ more.
Proof.
  destruct (decide (uid = userId attempt)) as [->|Hne].
  - pose proof (locationChange_step this attempt) as H. cbv zeta in H.
    destruct (locate (ipAddress attempt)) as [loc|];
      [destruct (isTypicalLocation _ _)|]; destruct H as [_ ->].
    + exists []. now rewrite app_nil_r.
    + now exists [loc].
    + exists []. now rewrite app_nil_r.
  - rewrite other_profile by exact Hne. exists []. now rewrite app_nil_r.
Qed.

Lemma typicalLocations_grow
    (this : Detector) (attempts : list LoginAttempt) (uid : string) :
  exists more : list GeoLocation,
    typicalLocations (profileOf (snd (analyzeAll this attempts)) uid)
    = typicalLocations (profileOf this uid) ++ more.
Proof.
  revert this. induction attempts as [|a rest IH]; intros this.
  - exists []. cbn [analyzeMultiple snd]. now rewrite app_nil_r.
  - rewrite analyzeMultiple_cons. cbn [snd].
    destruct (IH (snd (analyze this a))) as [more2 ->].
    destruct (typicalLocations_grow_step this a uid) as [more1 ->].
    exists (more1 ++ more2). now rewrite app_assoc.
Qed.

Lemma typical_after_analysis
    (this : Detector) (attempt : LoginAttempt) (loc : GeoLocation) :
  locate (ipAddress attempt) = Some loc ->
  isTypicalLocation loc (profileOf (snd (analyze this attempt))
                                   (userId attempt)) = true.
Proof.
  intros Hloc. pose proof (locationChange_step this attempt) as H.
  cbv zeta in H. rewrite Hloc in H.
  destruct (isTypicalLocation loc (profileOf this (userId attempt))) eqn:Hty;
    destruct H as [_ H]; unfold isTypicalLocation in *; rewrite H.
  - exact Hty.
  - rewrite existsb_app. cbn [existsb].
    now rewrite sameCityCountry_refl, orb_true_r.
Qed.

(** X6: a location becomes typical once and for all. After an attempt from
    an address that resolves has been analyzed, and after any batch of
    further attempts of any users, an attempt of the same user from a
    location with the same country and city has a location-change factor
    of 0. *)
Theorem known_location_scores_zero
    (this : Detector) (first again : LoginAttempt)
    (between : list LoginAttempt) (loc loc' : GeoLocation)
    (Hfirst : locate (ipAddress first) = Some loc)
    (Hagain : locate (ipAddress again) = Some loc')
    (Hkey : locationKey loc' = locationKey loc)
    (Huser : userId again = userId first) :
  locationChange
    (factors
       (fst (analyze (snd (analyzeAll (snd (analyze this first)) between))
                     again)))
  = Fin 0.
Proof.
  pose proof (locationChange_step
                (snd (analyzeAll (snd (analyze this first)) between)) again)
    as H.
  cbv zeta in H. rewrite Hagain in H.
  assert (Hty : isTypicalLocation loc'
                  (profileOf
                     (snd (analyzeAll (snd (analyze this first)) between))
                     (userId again)) = true).
  { rewrite (isTypicalLocation_key loc loc' _ Hkey), Huser.
    destruct (typicalLocations_grow (snd (analyze this first)) between
                (userId first)) as [more Hmore].
    unfold isTypicalLocation. rewrite Hmore, existsb_app.
    pose proof (typical_after_analysis this first loc Hfirst) as Hnow.
    unfold isTypicalLocation in Hnow. now rewrite Hnow. }
  rewrite Hty in H. now destruct H.
Qed.

(** ** How high the overall risk can get *)

Lemma calculateLocationChangeRisk_values
    (attempt : LoginAttempt) (profile : UserProfile) :
  fst (calculateLocationChangeRisk geoip_lookup attempt profile) = Fin 0
  \/ fst (calculateLocationChangeRisk geoip_lookup attempt profile) = Fin 40.
Proof.
  unfold calculateLocationChangeRisk.
  destruct (locate (ipAddress attempt)); [|now left].
  destruct (_ =? _)%nat; [now left|].
  destruct (existsb _ _); [now left | now right].
Qed.

Lemma calculateUnusualTimeRisk_values
    (attempt : LoginAttempt) (profile : UserProfile) :
  fst (calculateUnusualTimeRisk LocalTime attempt profile) = Fin 0
  \/ fst (calculateUnusualTimeRisk LocalTime attempt profile) = Fin 35.
Proof.
  unfold calculateUnusualTimeRisk.
  destruct (_ <? _)%nat; [now left|].
  destruct (isUnusualLoginTime _ _ _); [now right | now left].
Qed.

Lemma Math_round_at_most (q : Q) (k : Z) :
  (0 <= q)%Q -> (q < inject_Z k + (1 # 2))%Q ->
  exists z : Z, Math_round (Fin q) = of_Z z /\ 0 <= z <= k.
Proof.
  intros Hlo Hhi. exists (Qfloor (q + (1 # 2))). split; [reflexivity|].
  split.
  - change 0 with (Qfloor 0). apply Qfloor_resp_le. lra.
  - pose proof (Qfloor_le (q + (1 # 2))) as Hfloor.
    assert (Hlt : (inject_Z (Qfloor (q + (1 # 2))) < inject_Z (k + 1))%Q).
    { rewrite inject_Z_plus. change (inject_Z 1) with 1%Q. lra. }
    rewrite <- Zlt_Qlt in Hlt. lia.
Qed.

(** The overall risk from bounds on the four factors. *)
Lemma overallRisk_bounded
    (this : Detector) (attempt : LoginAttempt) (k : Z) (top : Q) :
  (0 < bruteForceThreshold (config this))%Q ->
  in_range (impossibleTravel (factors (fst (analyze this attempt)))) ->
  (forall q,
      impossibleTravel (factors (fst (analyze this attempt))) = Fin q ->
      (q <= top)%Q) ->
  (8 + top * (4 # 10) + 30 + (35 # 10) < inject_Z k + (1 # 2))%Q ->
  exists z : Z,
    overallRisk (fst (analyze this attempt)) = of_Z z /\ 0 <= z <= k.
Proof.
  intros Hthreshold Hit Htop Hk.
  rewrite (analyzeLogin_eq geoip_lookup calculateDistance LocalTime) in *.
  cbv zeta in *. cbn [fst overallRisk factors] in *.
  rewrite (riskFactors_eq geoip_lookup calculateDistance LocalTime) in *.
  cbv zeta in *.
  cbn [fst locationChange impossibleTravel bruteForce unusualTime] in *.
  set (p := recordAttempt attempt (profileOf this (userId attempt))) in *.
  set (p1 := snd (calculateLocationChangeRisk geoip_lookup attempt p)) in *.
  pose proof (calculateLocationChangeRisk_values attempt p) as Hlc.
  pose proof (calculateUnusualTimeRisk_values attempt p1) as Hut.
  pose proof (bruteForceScore_range
                (countFailures
                   (withinFullMinutes (bruteForceWindow (config this)))
                   (failedAttempts p1) (timestamp attempt))
                _ Hthreshold) as Hbf.
  rewrite <- calculateBruteForceRisk_score in Hbf.
  unfold calculateOverallRisk.
  cbn [locationChange impossibleTravel bruteForce unusualTime].
  destruct Hit as (b & Hb & Hb1 & Hb2). specialize (Htop b Hb).
  rewrite Hb. destruct Hbf as (c & -> & Hc1 & Hc2).
  destruct Hlc as [-> | ->], Hut as [-> | ->];
    cbn [num_add num_mul]; apply Math_round_at_most; lra.
Qed.

(** X7: inside [analyzeLogin] a successful attempt never has an
    impossible-travel factor: the attempt has become the last successful
    login of the profile when the factor is computed, so it is compared
    with itself and the factor is 0, wherever the login before came from. *)
Theorem successful_attempt_impossibleTravel_zero
    (this : Detector) (attempt : LoginAttempt)
    (Hok : success attempt = true) :
  impossibleTravel (factors (fst (analyze this attempt))) = Fin 0.
Proof.
  exact (analyzeLogin_success_impossibleTravel
           geoip_lookup calculateDistance LocalTime this attempt Hok).
Qed.

Lemma successful_attempt_low
    (this : Detector) (attempt : LoginAttempt)
    (Hok : success attempt = true)
    (Hthreshold : (0 < bruteForceThreshold (config this))%Q)
    (Hlevels : riskThresholds (config this) = riskThresholds defaultConfig) :
  (exists z : Z,
      overallRisk (fst (analyze this attempt)) = of_Z z /\ 0 <= z <= 42)
  /\ riskLevel (fst (analyze this attempt)) = low.
Proof.
  pose proof (analyzeLogin_success_impossibleTravel
                geoip_lookup calculateDistance LocalTime this attempt Hok)
    as Hit.
  assert (Hbound : exists z : Z,
             overallRisk (fst (analyze this attempt)) = of_Z z
             /\ 0 <= z <= 42).
  { apply (overallRisk_bounded this attempt 42 0 Hthreshold).
    - rewrite Hit. apply in_range_const. lra.
    - intros q Hq. rewrite Hit in Hq. injection Hq as <-. lra.
    - reflexivity. }
  split; [exact Hbound|].
  destruct Hbound as (z & Hz & Hz0 & Hz42).
  rewrite (analyzeLogin_eq geoip_lookup calculateDistance LocalTime) in *.
  cbv zeta in *. cbn [fst overallRisk riskLevel] in *.
  rewrite Hz. unfold determineRiskLevel. rewrite Hlevels.
  cbn [riskThresholds defaultConfig riskThresholds.critical
       riskThresholds.high riskThresholds.medium].
  unfold of_Z.
  rewrite !(proj2 (num_ge_Fin_false _ _)); [reflexivity| | |];
    unfold Qlt; cbn [Qnum Qden inject_Z]; lia.
Qed.

(** X8: with the thresholds of the default configuration and a positive
    brute-force threshold, a successful attempt is always classified low:
    its overall risk is an integer of at most 42, since its impossible-travel
    factor is 0 and the three others weigh at most 8 + 30 + 3.5. *)
Theorem successful_attempt_is_low
    (this : Detector) (attempt : LoginAttempt)
    (Hok : success attempt = true)
    (Hthreshold : (0 < bruteForceThreshold (config this))%Q)
    (Hlevels : riskThresholds (config this) = riskThresholds defaultConfig) :
  (exists z : Z,
      overallRisk (fst (analyze this attempt)) = of_Z z /\ 0 <= z <= 42)
  /\ riskLevel (fst (analyze this attempt)) = low.
Proof.
  exact (successful_attempt_low this attempt Hok Hthreshold Hlevels).
Qed.

Lemma attempt_not_critical
    (this : Detector) (attempt : LoginAttempt)
    (Hspeed : (0 <= maxTravelSpeed (config this))%Q)
    (Hthreshold : (0 < bruteForceThreshold (config this))%Q)
    (Hlevels : riskThresholds (config this) = riskThresholds defaultConfig) :
  (exists z : Z,
      overallRisk (fst (analyze this attempt)) = of_Z z /\ 0 <= z <= 82)
  /\ riskLevel (fst (analyze this attempt)) <> critical.
Proof.
  assert (Hit : in_range
                  (impossibleTravel (factors (fst (analyze this attempt))))).
  { rewrite (analyzeLogin_factors geoip_lookup calculateDistance LocalTime).
    rewrite (riskFactors_eq geoip_lookup calculateDistance LocalTime).
    cbv zeta. cbn [fst impossibleTravel].
    now apply calculateImpossibleTravelRisk_range. }
  assert (Hbound : exists z : Z,
             overallRisk (fst (analyze this attempt)) = of_Z z
             /\ 0 <= z <= 82).
  { apply (overallRisk_bounded this attempt 82 100 Hthreshold Hit).
    - intros q Hq. destruct Hit as (q' & Hq' & _ & Hle).
      rewrite Hq in Hq'. injection Hq' as ->. exact Hle.
    - reflexivity. }
  split; [exact Hbound|].
  destruct Hbound as (z & Hz & Hz0 & Hz82).
  rewrite (analyzeLogin_eq geoip_lookup calculateDistance LocalTime) in *.
  cbv zeta in *. cbn [fst overallRisk riskLevel] in *.
  rewrite Hz. unfold determineRiskLevel. rewrite Hlevels.
  cbn [riskThresholds defaultConfig riskThresholds.critical
       riskThresholds.high riskThresholds.medium].
  unfold of_Z.
  rewrite (proj2 (num_ge_Fin_false _ _));
    [|unfold Qlt; cbn [Qnum Qden inject_Z]; lia].
  now destruct (num_ge _ _); [|destruct (num_ge _ _)].
Qed.

(** X9: with the thresholds of the default configuration, a speed limit
    that is not negative and a positive brute-force threshold, no attempt is
    ever classified critical: the overall risk is an integer of at most 82
    (0.2 * 40 + 0.4 * 100 + 0.3 * 100 + 0.1 * 35 rounded), below the
    critical threshold of 85. *)
Theorem no_attempt_is_critical
    (this : Detector) (attempt : LoginAttempt)
    (Hspeed : (0 <= maxTravelSpeed (config this))%Q)
    (Hthreshold : (0 < bruteForceThreshold (config this))%Q)
    (Hlevels : riskThresholds (config this) = riskThresholds defaultConfig) :
  (exists z : Z,
      overallRisk (fst (analyze this attempt)) = of_Z z /\ 0 <= z <= 82)
  /\ riskLevel (fst (analyze this attempt)) <> critical.
Proof.
  exact (attempt_not_critical this attempt Hspeed Hthreshold Hlevels).
Qed.

(** ** The typical hours *)

Lemma hourCount_pos (logins : list LoginAttempt) (h : Z) :
  (0 < hourCount LocalTime logins h)%nat -> 0 <= h < 24.
Proof.
  unfold hourCount. intros Hpos.
  destruct (List.filter _ logins) as [|l rest] eqn:Hfilter;
    [simpl in Hpos; lia|].
  assert (Hin : In l (l :: rest)) by now left.
  rewrite <- Hfilter in Hin. apply filter_In in Hin as [_ Hh].
  apply Z.eqb_eq in Hh. rewrite <- Hh. apply getHours_range.
Qed.

Lemma reachesTenPercent_pos (logins : list LoginAttempt) (h : Z) :
  (0 < length logins)%nat ->
  reachesTenPercent LocalTime logins h = true ->
  (0 < hourCount LocalTime logins h)%nat.
Proof.
  unfold reachesTenPercent. intros Hpos H. apply Nat.leb_le in H. lia.
Qed.

(** X10: the typical hours that [calculateTypicalLoginHours] returns are
    hours of the day between 0 and 23, each of them the hour of at least one
    of the logins, without repetition; there is none for no login and at
    least one otherwise. *)
Theorem calculateTypicalLoginHours_hours (logins : list LoginAttempt) :
  let hours := calculateTypicalLoginHours LocalTime logins in
  (forall h, In h hours ->
             0 <= h < 24 /\ (0 < hourCount LocalTime logins h)%nat)
  /\ NoDup hours
  /\ (hours = [] <-> logins = []).
Proof.
  cbv zeta. destruct logins as [|l logins].
  - split; [|split].
    + intros h Hin. vm_compute in Hin. destruct Hin.
    + vm_compute. constructor.
    + split; [reflexivity | intros _; vm_compute; reflexivity].
  - assert (Hpos : (0 < length (l :: logins))%nat) by (simpl; lia).
    unfold calculateTypicalLoginHours. cbv zeta.
    rewrite (filter_ext _ (reachesTenPercent LocalTime (l :: logins)))
      by (intros h; now apply (typical_test LocalTime)).
    destruct (List.filter (reachesTenPercent LocalTime (l :: logins))
                          (seqZ 0 24))
      as [|x typical] eqn:Hfilter.
    + cbn [length Nat.eqb]. split; [|split].
      * intros h Hin.
        apply (proj1 (hourCounts_key LocalTime (l :: logins) h)) in Hin.
        split; [now apply (hourCount_pos (l :: logins)) | exact Hin].
      * unfold Object_keys. rewrite merge_sort_Permutation.
        apply NoDup_fst_map_to_list.
      * split; [|discriminate]. intros Hnil.
        pose proof (proj2 (hourCounts_key LocalTime (l :: logins) _)
                          (hourCount_first LocalTime l logins)) as Hkey.
        rewrite Hnil in Hkey. destruct Hkey.
    + cbn [length Nat.eqb]. rewrite <- Hfilter. split; [|split].
      * intros h Hin. apply filter_In in Hin as [Hseq Hreach].
        split; [now apply In_seqZ_24|].
        now apply reachesTenPercent_pos.
      * apply NoDup_ListNoDup, List.NoDup_filter, NoDup_ListNoDup,
          NoDup_seqZ.
      * rewrite Hfilter. split; discriminate.
Qed.

(** ** The window of the failed attempts *)




(** ** The brute-force score *)

Lemma Math_min_100_cases (x : Q) :
  exists c : Q,
    Math_min (Fin 100) (Fin x) = Fin c
    /\ ((x <= 100)%Q /\ c = x \/ (100 <= x)%Q /\ c = 100%Q).
Proof.
  unfold Math_min; simpl.
  destruct (Qcompare_spec 100 x) as [H|H|H].
  - exists 100%Q. split; [reflexivity|]. right. split; [lra | reflexivity].
  - exists 100%Q. split; [reflexivity|]. right. split; [lra | reflexivity].
  - exists x. split; [reflexivity|]. left. split; [lra | reflexivity].
Qed.

Lemma Qdiv_le_mono (a b t : Q) :
  (0 < t)%Q -> (a <= b)%Q -> (a / t <= b / t)%Q.
Proof.
  intros Ht Hab. apply Qle_shift_div_l; [exact Ht|].
  assert (H : (a / t * t == a)%Q) by (field; lra).
  rewrite H. exact Hab.
Qed.

Lemma bruteForceScore_cases (count : nat) (threshold : Q) :
  (0 < threshold)%Q ->
  let n := inject_Z (Z.of_nat count) in
  let x := (70 + (n / threshold - 1) * 30)%Q in
  exists c : Q,
    bruteForceScore count threshold = Fin c
    /\ ((n < (7 # 10) * threshold)%Q /\ c = 0%Q
        \/ ((7 # 10) * threshold <= n < threshold)%Q /\ c = 40%Q
        \/ (threshold <= n)%Q
           /\ ((x <= 100)%Q /\ (c == x)%Q \/ (100 <= x)%Q /\ c = 100%Q)).
Proof.
  intros Hpos n x. unfold bruteForceScore, of_nat, of_Z. fold n.
  destruct (num_ge (Fin n) (Fin threshold)) eqn:Hge.
  - apply num_ge_Fin in Hge. rewrite num_div_Fin by lra.
    cbn [num_sub num_neg num_add num_mul].
    assert (Hx : (70 + (n / threshold + - (1)) * 30 == x)%Q)
      by (unfold x; ring).
    destruct (Math_min_100_cases (70 + (n / threshold + - (1)) * 30))
      as (c & -> & Hc).
    exists c. split; [reflexivity|]. right. right. split; [exact Hge|].
    destruct Hc as [[Hle ->] | [Hle ->]].
    + left. split; [now rewrite <- Hx | exact Hx].
    + right. split; [now rewrite <- Hx | reflexivity].
  - apply num_ge_Fin_false in Hge. cbn [num_mul].
    destruct (num_ge (Fin n) (Fin ((7 # 10) * threshold))) eqn:Hge7.
    + apply num_ge_Fin in Hge7. exists 40%Q. split; [reflexivity|].
      right. left. split; [split; assumption | reflexivity].
    + apply num_ge_Fin_false in Hge7. exists 0%Q. split; [reflexivity|].
      left. split; [assumption | reflexivity].
Qed.

Lemma bruteForceScore_monotone (n1 n2 : nat) (threshold : Q) :
  (0 < threshold)%Q -> (n1 <= n2)%nat ->
  num_le (bruteForceScore n1 threshold) (bruteForceScore n2 threshold) = true.
Proof.
  intros Hpos Hle.
  destruct (bruteForceScore_cases n1 threshold Hpos) as (c1 & -> & H1).
  destruct (bruteForceScore_cases n2 threshold Hpos) as (c2 & -> & H2).
  cbv zeta in H1, H2. unfold num_le. apply num_ge_Fin.
  assert (Hn : (inject_Z (Z.of_nat n1) <= inject_Z (Z.of_nat n2))%Q)
    by (rewrite <- Zle_Qle; lia).
  pose proof (Qdiv_le_mono _ _ threshold Hpos Hn) as Hr.
  assert (Hone : forall n, (threshold <= n)%Q -> (1 <= n / threshold)%Q)
    by (intros n Hn'; apply Qle_shift_div_l; lra).
  set (m1 := inject_Z (Z.of_nat n1)) in *.
  set (m2 := inject_Z (Z.of_nat n2)) in *.
  destruct H1 as [[A1 ->] | [[A1 ->] | [A1 B1]]];
    destruct H2 as [[A2 ->] | [[A2 ->] | [A2 B2]]];
    try lra;
    try (pose proof (Hone m1 A1));
    try (pose proof (Hone m2 A2));
    try (destruct B1 as [[B1 B1'] | [B1 ->]]);
    try (destruct B2 as [[B2 B2'] | [B2 ->]]);
    generalize dependent (m1 / threshold)%Q;
    generalize dependent (m2 / threshold)%Q; intros; lra.
Qed.

Lemma calculateBruteForceRisk_length
    (this : Detector) (attempt : LoginAttempt) (profile : UserProfile) :
  calculateBruteForceRisk this attempt profile
  = bruteForceScore
      (length (getFailedAttemptsInWindow
                 (failedAttempts profile) (timestamp attempt)
                 (bruteForceWindow (config this))))
      (bruteForceThreshold (config this)).
Proof.
  unfold calculateBruteForceRisk, bruteForceScore.
  now rewrite (num_mul_comm (Fin (bruteForceThreshold (config this)))).
Qed.

(** X12: more failures never lower the brute-force factor. With a positive
    threshold, a profile with at least as many failed attempts in the window
    as another gets a factor that is at least as high; from the threshold on
    the factor is at least 70, and from twice the threshold on it is 100. *)
Theorem calculateBruteForceRisk_monotone
    (this : Detector) (attempt : LoginAttempt) (fewer more : UserProfile)
    (Hthreshold : (0 < bruteForceThreshold (config this))%Q)
    (Hcount :
       (length (getFailedAttemptsInWindow
                  (failedAttempts fewer) (timestamp attempt)
                  (bruteForceWindow (config this)))
        <= length (getFailedAttemptsInWindow
                     (failedAttempts more) (timestamp attempt)
                     (bruteForceWindow (config this))))%nat) :
  let count :=
    inject_Z
      (Z.of_nat
         (length (getFailedAttemptsInWindow
                    (failedAttempts more) (timestamp attempt)
                    (bruteForceWindow (config this))))) in
  num_le (calculateBruteForceRisk this attempt fewer)
         (calculateBruteForceRisk this attempt more) = true
  /\ ((bruteForceThreshold (config this) <= count)%Q ->
      num_ge (calculateBruteForceRisk this attempt more) (Fin 70) = true)
  /\ ((2 * bruteForceThreshold (config this) <= count)%Q ->
      num_eq (calculateBruteForceRisk this attempt more) (Fin 100)).
Proof.
  cbv zeta. rewrite !calculateBruteForceRisk_length.
  split; [now apply bruteForceScore_monotone|].
  clear Hcount.
  set (n := length (getFailedAttemptsInWindow
                      (failedAttempts more) (timestamp attempt)
                      (bruteForceWindow (config this)))).
  destruct (bruteForceScore_cases n _ Hthreshold) as (c & -> & Hc).
  cbv zeta in Hc.
  set (t := bruteForceThreshold (config this)) in *.
  set (m := inject_Z (Z.of_nat n)) in *.
  split.
  - intros Hge. apply num_ge_Fin.
    assert (Hone : (1 <= m / t)%Q) by (apply Qle_shift_div_l; lra).
    destruct Hc as [[A _] | [[A _] | [_ [[B B'] | [B ->]]]]]; lra.
  - intros Hge. cbn [num_eq].
    assert (Htwo : (2 <= m / t)%Q) by (apply Qle_shift_div_l; lra).
    destruct Hc as [[A _] | [[A _] | [_ [[B B'] | [B ->]]]]];
      try lra; reflexivity.
Qed.

(** ** Impossible travel within the hour *)



(** ** The aggregator is monotone *)

(** X14: raising a factor never lowers the overall risk. For two vectors of
    finite factors, the second at least as high as the first in each of the
    four factors, the overall risk of the second is at least that of the
    first. *)
Theorem calculateOverallRisk_monotone
    (a b c d a' b' c' d' : Q)
    (Ha : (a <= a')%Q) (Hb : (b <= b')%Q)
    (Hc : (c <= c')%Q) (Hd : (d <= d')%Q) :
  num_le
    (calculateOverallRisk
       {| locationChange := Fin a; impossibleTravel := Fin b;
          bruteForce := Fin c; unusualTime := Fin d |})
    (calculateOverallRisk
       {| locationChange := Fin a'; impossibleTravel := Fin b';
          bruteForce := Fin c'; unusualTime := Fin d' |}) = true.
Proof.
  unfold calculateOverallRisk, num_le.
  cbn [locationChange impossibleTravel bruteForce unusualTime
       num_add num_mul Math_round].
  apply num_ge_Fin. rewrite <- Zle_Qle. apply Qfloor_resp_le. lra.
Qed.

(** ** The recommendations *)

(** X15: the recommendations are never empty, and the all-clear stands
    alone. [generateRecommendations] returns at least one and at most eight
    recommendations; it returns the single recommendation to allow access
    exactly when the level is low and no factor is above its mark (50 for
    impossible travel and brute force, 30 for location change and unusual
    time), and that recommendation never comes with another one; the
    recommendation to block comes first exactly when the level is high or
    critical. *)
Theorem generateRecommendations_shape (f : RiskFactors) (level : RiskLevel) :
  let recs := generateRecommendations f level in
  let allow := "Login appears legitimate - allow access" in
  let block := "Block login attempt and require additional verification" in
  (1 <= length recs <= 8)%nat
  /\ (recs = [allow]
      <-> level = low
          /\ (impossibleTravel f >? Fin 50)%num = false
          /\ (bruteForce f >? Fin 50)%num = false
          /\ (locationChange f >? Fin 30)%num = false
          /\ (unusualTime f >? Fin 30)%num = false)
  /\ (In allow recs -> recs = [allow])
  /\ (hd_error recs = Some block <-> level = high \/ level = critical).
Proof.
  cbv zeta. unfold generateRecommendations.
  destruct level;
    destruct (impossibleTravel f >? Fin 50)%num;
    destruct (bruteForce f >? Fin 50)%num;
    destruct (locationChange f >? Fin 30)%num;
    destruct (unusualTime f >? Fin 30)%num;
    cbn [app length Nat.eqb hd_error In];
    (split; [lia|]);
    (split; [split; [intros H; try discriminate H; repeat split
                    | intros (H1 & H2 & H3 & H4 & H5);
                      try discriminate; reflexivity]|]);
    (split; [intros H; repeat (destruct H as [H|H]; try discriminate H);
             try reflexivity; try contradiction|]);
    (split; [intros H; try discriminate H; (now left) || (now right)
            | intros [H|H]; try discriminate H; reflexivity]).
Qed.

(** ** A brute-force threshold of 0 *)

Lemma num_add_NaN_r (x : number) : (x + NaN)%num = NaN.
Proof. now destruct x. Qed.

(** X16: with a brute-force threshold of 0, an attempt with no failed
    attempt on record within the window is not scored: the ratio of the
    count to the threshold is [0/0], the brute-force factor and the overall
    risk are [NaN], and the level is low. *)
Theorem zero_threshold_gives_NaN
    (this : Detector) (attempt : LoginAttempt)
    (Hzero : (bruteForceThreshold (config this) == 0)%Q)
    (Hnone :
       getFailedAttemptsInWindow
         (failuresOnRecord (profileOf this (userId attempt)) attempt)
         (timestamp attempt) (bruteForceWindow (config this)) = []) :
  bruteForce (factors (fst (analyze this attempt))) = NaN
  /\ overallRisk (fst (analyze this attempt)) = NaN
  /\ riskLevel (fst (analyze this attempt)) = low.
Proof.
  assert (Hbf : bruteForce (factors (fst (analyze this attempt))) = NaN).
  { rewrite (analyzeLogin_bruteForce geoip_lookup calculateDistance
               LocalTime).
    unfold calculateBruteForceRisk.
    rewrite recordAttempt_failedAttempts, Hnone.
    cbn [length]. change (of_nat 0) with (Fin (0 # 1)).
    assert (Hge : num_ge (Fin (0 # 1))
                         (Fin (bruteForceThreshold (config this))) = true)
      by (apply num_ge_Fin; rewrite Hzero; apply Qle_refl).
    rewrite Hge. cbn [num_div].
    assert (Hz : is_zero (bruteForceThreshold (config this)) = true)
      by (unfold is_zero; now apply Qeq_bool_iff).
    rewrite Hz. reflexivity. }
  split; [exact Hbf|].
  rewrite (analyzeLogin_eq geoip_lookup calculateDistance LocalTime) in *.
  cbv zeta in *. cbn [fst overallRisk riskLevel factors] in *.
  unfold calculateOverallRisk. rewrite Hbf.
  cbn [num_mul]. rewrite num_add_NaN_r. cbn [num_add Math_round].
  split; reflexivity.
Qed.

(** ** The log analyzer *)

Lemma Array_from_Set_In (x : string) (values : list string) :
  In x (Array_from_Set values) <-> In x values.
Proof.
  induction values as [|y rest IH]; [reflexivity|].
  cbn [Array_from_Set In]. rewrite filter_In, IH, negb_true_iff.
  destruct (String.eqb_spec y x) as [->|Hne]; [tauto|].
  split; [tauto|]. intros [H|H]; [tauto | right; tauto].
Qed.

Lemma Array_from_Set_NoDup (values : list string) :
  List.NoDup (Array_from_Set values).
Proof.
  induction values as [|y rest IH]; [constructor|].
  cbn [Array_from_Set]. constructor.
  - rewrite filter_In, String.eqb_refl. intros [_ H]. discriminate H.
  - now apply List.NoDup_filter.
Qed.

Lemma filter_length_le {A : Type} (f : A -> bool) (l : list A) :
  (length (List.filter f l) <= length l)%nat.
Proof.
  induction l as [|x l IH]; [reflexivity|]. cbn [List.filter].
  destruct (f x); cbn [length]; lia.
Qed.

Lemma Array_from_Set_length (values : list string) :
  (length (Array_from_Set values) <= length values)%nat.
Proof.
  induction values as [|y rest IH]; [reflexivity|].
  cbn [Array_from_Set length].
  pose proof (filter_length_le (fun z => negb (String.eqb y z))
                               (Array_from_Set rest)). lia.
Qed.

Lemma insertByTimestamp_Permutation
    (a : LoginAttempt) (sorted : list LoginAttempt) :
  Permutation (insertByTimestamp a sorted) (a :: sorted).
Proof.
  induction sorted as [|b rest IH]; [reflexivity|].
  cbn [insertByTimestamp]. destruct (_ <=? _); [reflexivity|].
  rewrite IH. apply perm_swap.
Qed.

Lemma sortByTimestamp_Permutation (attempts : list LoginAttempt) :
  Permutation (sortByTimestamp attempts) attempts.
Proof.
  induction attempts as [|a rest IH]; [reflexivity|].
  cbn [sortByTimestamp]. rewrite insertByTimestamp_Permutation.
  now constructor.
Qed.

Lemma insertByTimestamp_sorted
    (a : LoginAttempt) (sorted : list LoginAttempt) :
  StronglySorted notLater sorted ->
  StronglySorted notLater (insertByTimestamp a sorted).
Proof.
  induction 1 as [|b rest Hsorted IH Hb]; cbn [insertByTimestamp].
  - repeat constructor.
  - destruct (Z.leb_spec (timestamp a) (timestamp b)) as [Hle|Hgt].
    + constructor; [now constructor|]. constructor; [exact Hle|].
      eapply List.Forall_impl; [|exact Hb].
      intros c Hc. unfold notLater in *. lia.
    + constructor; [exact IH|].
      apply Forall_forall. intros c Hc. apply list_elem_of_In in Hc.
      apply (Permutation_in _ (insertByTimestamp_Permutation a rest)) in Hc.
      destruct Hc as [<-|Hc]; [unfold notLater; lia|].
      rewrite Forall_forall in Hb. apply Hb. now apply list_elem_of_In.
Qed.

Lemma sortByTimestamp_sorted (attempts : list LoginAttempt) :
  StronglySorted notLater (sortByTimestamp attempts).
Proof.
  induction attempts as [|a rest IH]; [constructor|].
  cbn [sortByTimestamp]. now apply insertByTimestamp_sorted.
Qed.

Lemma analyzeMultiple_keys (this : Detector) (attempts : list LoginAttempt) :
  map assessmentKey (fst (analyzeAll this attempts)) = map attemptKey attempts.
Proof.
  revert this. induction attempts as [|a rest IH]; intros this;
    [reflexivity|].
  rewrite analyzeMultiple_cons. cbn [fst map]. rewrite IH. f_equal.
  now rewrite (analyzeLogin_eq geoip_lookup calculateDistance LocalTime).
Qed.

Lemma analyzeLogins_eq
    (detector : Detector) (now : Z) (attempts : list LoginAttempt) :
  analyzeLogins geoip_lookup calculateDistance LocalTime detector now attempts
  = (generateReport now (sortByTimestamp attempts)
       (fst (analyzeAll detector (sortByTimestamp attempts))),
     snd (analyzeAll detector (sortByTimestamp attempts))).
Proof.
  unfold analyzeLogins.
  now destruct (analyzeAll detector (sortByTimestamp attempts)).
Qed.

Lemma StronglySorted_map_timestamp (l : list LoginAttempt) :
  StronglySorted notLater l -> StronglySorted Z.le (map timestamp l).
Proof.
  induction 1 as [|a l Hl IH Ha]; [constructor|].
  cbn [map]. constructor; [exact IH|].
  apply Forall_forall. intros t Ht.
  apply list_elem_of_In, in_map_iff in Ht. destruct Ht as (b & <- & Hb).
  rewrite Forall_forall in Ha. apply Ha. now apply list_elem_of_In.
Qed.

(** X17: the report of [analyzeLogins]. The report counts every attempt
    of the input; it holds one assessment per attempt, in chronological
    order, the assessments being those of the attempts sorted by timestamp;
    the suspicious logins and the users analyzed are at most the logins;
    the high-risk users are listed once each, they are the users of the
    assessments whose level is high or critical, and they are at most as
    many as the suspicious logins and as the users analyzed. *)
Theorem analyzeLogins_report
    (detector : Detector) (now : Z) (attempts : list LoginAttempt) :
  let report :=
    fst (analyzeLogins geoip_lookup calculateDistance LocalTime
                       detector now attempts) in
  totalLogins report = length attempts
  /\ map assessmentKey (detailedResults report)
     = map attemptKey (sortByTimestamp attempts)
  /\ length (detailedResults report) = length attempts
  /\ StronglySorted Z.le (map assessment_timestamp (detailedResults report))
  /\ (suspiciousLogins report <= totalLogins report)%nat
  /\ (usersAnalyzed report <= totalLogins report)%nat
  /\ List.NoDup (highRiskUsers report)
  /\ (forall u : string,
         In u (highRiskUsers report)
         <-> exists r : RiskAssessment,
               In r (detailedResults report)
               /\ (riskLevel r = high \/ riskLevel r = critical)
               /\ assessment_userId r = u)
  /\ (length (highRiskUsers report) <= suspiciousLogins report)%nat
  /\ (length (highRiskUsers report) <= usersAnalyzed report)%nat.
Proof.
  cbv zeta. rewrite analyzeLogins_eq. cbn [fst].
  set (sorted := sortByTimestamp attempts).
  set (results := fst (analyzeAll detector sorted)).
  pose proof (analyzeMultiple_keys detector sorted) as Hkeys.
  fold results in Hkeys.
  pose proof (sortByTimestamp_Permutation attempts) as Hperm.
  fold sorted in Hperm.
  assert (Hlen : length sorted = length attempts)
    by now apply Permutation_length.
  assert (Hres : length results = length sorted).
  { apply (f_equal (@length _)) in Hkeys. now rewrite !length_map in Hkeys. }
  assert (Husers : map assessment_userId results = map userId sorted).
  { apply (f_equal (map fst)) in Hkeys.
    now rewrite !map_map in Hkeys. }
  assert (Htimes : map assessment_timestamp results = map timestamp sorted).
  { apply (f_equal (map snd)) in Hkeys.
    now rewrite !map_map in Hkeys. }
  assert (Hmember : forall u : string,
             In u (map assessment_userId
                       (List.filter isSuspicious results))
             <-> exists r : RiskAssessment,
                   In r results
                   /\ (riskLevel r = high \/ riskLevel r = critical)
                   /\ assessment_userId r = u).
  { intros u. rewrite in_map_iff. split.
    - intros (r & <- & Hr). apply filter_In in Hr as [Hin Hs].
      exists r. repeat split; [exact Hin|].
      unfold isSuspicious in Hs.
      destruct (riskLevel r); try discriminate; [now left | now right].
    - intros (r & Hin & Hlevel & <-). exists r. split; [reflexivity|].
      apply filter_In. split; [exact Hin|]. unfold isSuspicious.
      now destruct Hlevel as [-> | ->]. }
  unfold generateReport.
  cbn [totalLogins suspiciousLogins usersAnalyzed highRiskUsers
       detailedResults].
  repeat split.
  - exact Hlen.
  - exact Hkeys.
  - now rewrite Hres.
  - rewrite Htimes. apply StronglySorted_map_timestamp.
    apply sortByTimestamp_sorted.
  - rewrite <- Hres. apply filter_length_le.
  - etransitivity; [apply Array_from_Set_length|]. now rewrite length_map.
  - apply Array_from_Set_NoDup.
  - rewrite Array_from_Set_In. apply Hmember.
  - rewrite Array_from_Set_In. apply Hmember.
  - etransitivity; [apply Array_from_Set_length|]. now rewrite length_map.
  - apply List.NoDup_incl_length; [apply Array_from_Set_NoDup|].
    intros u Hu. rewrite Array_from_Set_In in *. rewrite <- Husers.
    apply in_map_iff in Hu as (r & <- & Hr). apply in_map.
    now apply filter_In in Hr as [Hr _].
Qed.

Lemma sorted_Permutation_eq (l1 l2 : list LoginAttempt) :
  StronglySorted notLater l1 -> StronglySorted notLater l2 ->
  Permutation l1 l2 -> List.NoDup (map timestamp l1) -> l1 = l2.
Proof.
  intros Hs1. revert l2.
  induction Hs1 as [|a l1 Hs1 IH Ha]; intros l2 Hs2 Hperm Hnodup.
  - now apply Permutation_nil in Hperm.
  - destruct Hs2 as [|b l2 Hs2 Hb].
    + apply Permutation_sym, Permutation_nil in Hperm. discriminate Hperm.
    + cbn [map] in Hnodup. apply List.NoDup_cons_iff in Hnodup as [Hfresh Hnd].
      assert (Hab : a = b).
      { assert (Hina : In a (b :: l2))
          by (apply (Permutation_in _ Hperm); now left).
        assert (Hinb : In b (a :: l1))
          by (apply (Permutation_in _ (Permutation_sym Hperm)); now left).
        destruct Hina as [Heq|Hina]; [now symmetry|].
        destruct Hinb as [Heq|Hinb]; [exact Heq|].
        rewrite Forall_forall in Ha, Hb.
        apply list_elem_of_In in Hina as Hina', Hinb as Hinb'.
        specialize (Ha b Hinb'). specialize (Hb a Hina').
        unfold notLater in Ha, Hb.
        exfalso. apply Hfresh. apply in_map_iff. exists b.
        split; [lia | exact Hinb]. }
      subst b. f_equal. apply Permutation_cons_inv in Hperm.
      now apply IH.
Qed.

(** X18: the report does not depend on the order of the input when the
    timestamps are all different: for two inputs that hold the same
    attempts in another order, [analyzeLogins] analyzes them in the same,
    chronological order and returns the same report and the same state. *)
Theorem analyzeLogins_any_order
    (detector : Detector) (now : Z) (attempts shuffled : list LoginAttempt)
    (Hperm : Permutation attempts shuffled)
    (Hdistinct : List.NoDup (map timestamp attempts)) :
  sortByTimestamp attempts = sortByTimestamp shuffled
  /\ analyzeLogins geoip_lookup calculateDistance LocalTime
                   detector now attempts
     = analyzeLogins geoip_lookup calculateDistance LocalTime
                     detector now shuffled.
Proof.
  assert (Heq : sortByTimestamp attempts = sortByTimestamp shuffled).
  { apply sorted_Permutation_eq; try apply sortByTimestamp_sorted.
    - rewrite !sortByTimestamp_Permutation. exact Hperm.
    - eapply Permutation_NoDup; [|exact Hdistinct].
      apply Permutation_map, Permutation_sym, sortByTimestamp_Permutation. }
  split; [exact Heq|]. now rewrite !analyzeLogins_eq, Heq.
Qed.

Lemma analyzeMultiple_levels
    (this : Detector) (attempts : list LoginAttempt) :
  (0 <= maxTravelSpeed (config this))%Q ->
  (0 < bruteForceThreshold (config this))%Q ->
  riskThresholds (config this) = riskThresholds defaultConfig ->
  Forall2 (fun a r => riskLevel r <> critical
                      /\ (success a = true -> riskLevel r = low))
          attempts (fst (analyzeAll this attempts)).
Proof.
  revert this. induction attempts as [|a rest IH];
    intros this Hspeed Hthreshold Hlevels.
  - constructor.
  - rewrite analyzeMultiple_cons. cbn [fst]. constructor.
    + split.
      * apply (attempt_not_critical this a Hspeed Hthreshold Hlevels).
      * intros Hok.
        apply (successful_attempt_low this a Hok Hthreshold Hlevels).
    + apply IH;
        now rewrite (analyzeLogin_config geoip_lookup calculateDistance
                       LocalTime).
Qed.

Lemma suspicious_are_failures
    (attempts : list LoginAttempt) (results : list RiskAssessment) :
  Forall2 (fun a r => riskLevel r <> critical
                      /\ (success a = true -> riskLevel r = low))
          attempts results ->
  (length (List.filter isSuspicious results)
   <= length (failuresOf attempts))%nat.
Proof.
  unfold failuresOf.
  induction 1 as [|a r attempts results [_ Hlow] _ IH]; [reflexivity|].
  cbn [List.filter]. unfold isSuspicious at 1.
  destruct (success a); cbn [negb].
  - now rewrite (Hlow eq_refl).
  - destruct (riskLevel r); cbn [length]; lia.
Qed.

(** X19: with the thresholds of the default configuration, which the
    detector of a log analyzer has, a speed limit that is not negative and a
    positive brute-force threshold, the report never holds a critical
    assessment, and its suspicious logins are at most as many as the failed
    attempts of the input: a successful login is never reported as
    suspicious. *)
Theorem analyzeLogins_suspicious_are_failures
    (detector : Detector) (now : Z) (attempts : list LoginAttempt)
    (Hspeed : (0 <= maxTravelSpeed (config detector))%Q)
    (Hthreshold : (0 < bruteForceThreshold (config detector))%Q)
    (Hlevels : riskThresholds (config detector)
               = riskThresholds defaultConfig) :
  let report :=
    fst (analyzeLogins geoip_lookup calculateDistance LocalTime
                       detector now attempts) in
  Forall (fun r => riskLevel r <> critical) (detailedResults report)
  /\ (suspiciousLogins report <= length (failuresOf attempts))%nat.
Proof.
  cbv zeta. rewrite analyzeLogins_eq. cbn [fst].
  pose proof (analyzeMultiple_levels detector (sortByTimestamp attempts)
                Hspeed Hthreshold Hlevels) as Hall.
  unfold generateReport. cbn [detailedResults suspiciousLogins].
  split.
  - clear -Hall. induction Hall as [|a r l1 l2 [Hr _] _ IH];
      constructor; assumption.
  - etransitivity; [apply (suspicious_are_failures _ _ Hall)|].
    unfold failuresOf. apply Nat.eq_le_incl, Permutation_length.
    (* the failed attempts of the sorted input are those of the input *)
    clear. induction attempts as [|a rest IH]; [reflexivity|].
    cbn [sortByTimestamp].
    assert (Hins : forall l,
               Permutation
                 (List.filter (fun x => negb (success x))
                              (insertByTimestamp a l))
                 (List.filter (fun x => negb (success x)) (a :: l))).
    { induction l as [|b l IHl]; [reflexivity|]. cbn [insertByTimestamp].
      destruct (_ <=? _); [reflexivity|]. cbn [List.filter] in *.
      destruct (negb (success b)), (negb (success a));
        rewrite IHl; try reflexivity. apply perm_swap. }
    rewrite Hins. cbn [List.filter]. destruct (negb (success a));
      now rewrite IH.
Qed.

(** ** Loading profiles *)

Lemma loadProfiles_cons
    (this : Detector) (profile : UserProfile) (rest : list UserProfile) :
  loadProfiles this (profile :: rest)
  = loadProfiles
      {| config := config this;
         userProfiles :=
           <[profile_userId profile := profile]> (userProfiles this) |}
      rest.
Proof. reflexivity. Qed.

Lemma loadProfiles_lookup_aux
    (this : Detector) (profiles : list UserProfile) (uid : string) :
  config (loadProfiles this profiles) = config this
  /\ userProfiles (loadProfiles this profiles) !! uid
     = match list.last
               (List.filter (fun p => String.eqb (profile_userId p) uid)
                            profiles) with
       | Some p => Some p
       | None => userProfiles this !! uid
       end.
Proof.
  revert this. induction profiles as [|p rest IH]; intros this.
  - split; reflexivity.
  - rewrite loadProfiles_cons.
    destruct (IH {| config := config this;
                    userProfiles :=
                      <[profile_userId p := p]> (userProfiles this) |})
      as [Hc Hl].
    split; [exact Hc|]. rewrite Hl. cbn [userProfiles List.filter].
    destruct (String.eqb_spec (profile_userId p) uid) as [<-|Hne].
    + rewrite lookup_insert_eq.
      destruct (List.filter _ rest) as [|q l]; [reflexivity|].
      rewrite last_cons_cons, (last_cons q l). now destruct (list.last l).
    + now rewrite lookup_insert_ne.
Qed.

(** X20: [loadProfiles] stores every profile under its [userId]: after the
    call the profile of a user is the last profile of the list with that
    [userId], or the profile the user had before if the list has none; the
    configuration is untouched. *)
Theorem loadProfiles_lookup
    (this : Detector) (profiles : list UserProfile) (uid : string) :
  config (loadProfiles this profiles) = config this
  /\ getUserProfileData (loadProfiles this profiles) uid
     = match list.last
               (List.filter (fun p => String.eqb (profile_userId p) uid)
                            profiles) with
       | Some p => Some p
       | None => getUserProfileData this uid
       end.
Proof. exact (loadProfiles_lookup_aux this profiles uid). Qed.

Lemma last_all_equal {A : Type} (x : A) (l : list A) :
  l <> [] -> (forall y, In y l -> y = x) -> list.last l = Some x.
Proof.
  induction l as [|y l IH]; [congruence|]. intros _ Hall.
  destruct l as [|z l].
  - cbn. f_equal. apply Hall. now left.
  - rewrite last_cons_cons. apply IH; [discriminate|].
    intros w Hw. apply Hall. now right.
Qed.

(** X21: saving the profiles of a detector and loading them into a new one
    restores it. When every profile is stored under its own [userId], as it
    is after any batch on a new detector, loading the stored profiles into a
    detector with the same configuration and no profile gives the detector
    back. *)
Theorem loadProfiles_restores
    (this : Detector) (Hkeyed : keyedByUserId this) :
  loadProfiles {| config := config this; userProfiles := ∅ |}
               (map snd (map_to_list (userProfiles this)))
  = this
  /\ (forall (c : option PartialDetectorConfig)
             (attempts : list LoginAttempt),
         keyedByUserId (snd (analyzeAll (constructor c) attempts))).
Proof.
  split.
  - destruct this as [cfg profiles]. cbn [config userProfiles] in *.
    set (stored := map snd (map_to_list profiles)).
    assert (Hin : forall p, In p stored
                            <-> profiles !! profile_userId p = Some p).
    { intros p. unfold stored. rewrite in_map_iff. split.
      - intros ([k q] & <- & Hkq). apply list_elem_of_In in Hkq.
        apply elem_of_map_to_list in Hkq. cbn [snd].
        now rewrite (Hkeyed k q Hkq).
      - intros Hp. exists (profile_userId p, p). split; [reflexivity|].
        apply list_elem_of_In. now apply elem_of_map_to_list. }
    pose proof (loadProfiles_lookup_aux
                  {| config := cfg; userProfiles := ∅ |} stored) as Hload.
    destruct (loadProfiles {| config := cfg; userProfiles := ∅ |} stored)
      as [cfg' profiles'] eqn:Hloaded.
    cbn [config userProfiles] in Hload.
    destruct (Hload "") as [-> _]. f_equal.
    apply map_eq. intros uid. destruct (Hload uid) as [_ ->].
    rewrite lookup_empty.
    destruct (profiles !! uid) as [p|] eqn:Hp.
    + rewrite (last_all_equal p); [reflexivity| |].
      * assert (Hp' : In p (List.filter
                              (fun q => String.eqb (profile_userId q) uid)
                              stored)).
        { apply filter_In. pose proof (Hkeyed uid p Hp) as Hk.
          split; [apply Hin; now rewrite Hk | now apply String.eqb_eq]. }
        intros Hnil. now rewrite Hnil in Hp'.
      * intros q Hq. apply filter_In in Hq as [Hq Hk].
        apply String.eqb_eq in Hk. apply Hin in Hq. congruence.
    + destruct (List.filter _ stored) as [|q l] eqn:Hfilter; [reflexivity|].
      assert (Hq : In q (q :: l)) by now left.
      rewrite <- Hfilter in Hq. apply filter_In in Hq as [Hq Hk].
      apply String.eqb_eq in Hk. apply Hin in Hq. congruence.
  - intros c attempts. apply analyzeMultiple_keyed.
    intros uid p Hp. cbn [constructor userProfiles] in Hp.
    now rewrite lookup_empty in Hp.
Qed.

(** ** The stored typical hours *)

Lemma locationChange_keeps_hours
    (attempt : LoginAttempt) (profile : UserProfile) :
  typicalLoginHours
    (snd (calculateLocationChangeRisk geoip_lookup attempt profile))
  = typicalLoginHours profile.
Proof.
  unfold calculateLocationChangeRisk.
  destruct (locate (ipAddress attempt)); [|reflexivity].
  destruct (_ =? _)%nat; [reflexivity|]. now destruct (existsb _ _).
Qed.

(** X23: the typical hours of a profile are learned from the tenth
    successful login on. After [analyzeLogin] the typical login hours of the
    user are those before as long as fewer than 10 successful logins are on
    record, the current attempt included; from then on they are recomputed
    at every call from all the successful logins on record, and they are
    hours between 0 and 23. *)
Theorem analyzeLogin_typicalLoginHours
    (this : Detector) (attempt : LoginAttempt) :
  let before := profileOf this (userId attempt) in
  let after := profileOf (snd (analyze this attempt)) (userId attempt) in
  let successes := successesOnRecord before attempt in
  typicalLoginHours after
  = (if (length successes <? 10)%nat then typicalLoginHours before
     else calculateTypicalLoginHours LocalTime successes)
  /\ ((10 <= length successes)%nat ->
      typicalLoginHours after <> []
      /\ Forall (fun h => 0 <= h < 24) (typicalLoginHours after)).
Proof.
  cbv zeta.
  assert (Heq : typicalLoginHours
                  (profileOf (snd (analyze this attempt)) (userId attempt))
                = (if (length (successesOnRecord
                                 (profileOf this (userId attempt)) attempt)
                       <? 10)%nat
                   then typicalLoginHours (profileOf this (userId attempt))
                   else calculateTypicalLoginHours LocalTime
                          (successesOnRecord
                             (profileOf this (userId attempt)) attempt))).
  { rewrite stored_profile.
    rewrite (riskFactors_eq geoip_lookup calculateDistance LocalTime).
    cbv zeta. cbn [snd]. unfold calculateUnusualTimeRisk.
    destruct (locationChange_keeps geoip_lookup attempt
                (recordAttempt attempt (profileOf this (userId attempt))))
      as (-> & _ & _).
    unfold successesOnRecord. cbn [recordAttempt loginHistory].
    destruct (_ <? _)%nat.
    - cbn [snd]. now rewrite locationChange_keeps_hours.
    - now destruct (isUnusualLoginTime _ _ _). }
  split; [exact Heq|].
  intros Hten. rewrite Heq. apply Nat.ltb_ge in Hten as Hlt. rewrite Hlt.
  destruct (calculateTypicalLoginHours_hours
              (successesOnRecord (profileOf this (userId attempt)) attempt))
    as (Hrange & _ & Hnil).
  split.
  - intros Hempty. apply Hnil in Hempty. rewrite Hempty in Hten.
    simpl in Hten. lia.
  - apply Forall_forall. intros h Hh. apply list_elem_of_In in Hh.
    now apply Hrange.
Qed.

(** ** Thresholds that are not increasing *)

(** X24: thresholds out of order hide levels. Whatever the score, the level
    high is never assigned when the critical threshold is not above the high
    one, and the level medium is never assigned when the high or the
    critical threshold is not above the medium one; with strictly
    increasing thresholds each of the four levels is the level of some
    score. *)
Theorem determineRiskLevel_shadowed_levels (this : Detector) :
  let th := riskThresholds (config this) in
  ((riskThresholds.critical th <= riskThresholds.high th)%Q ->
   forall score, determineRiskLevel this score <> high)
  /\ ((riskThresholds.high th <= riskThresholds.medium th)%Q
      \/ (riskThresholds.critical th <= riskThresholds.medium th)%Q ->
      forall score, determineRiskLevel this score <> medium)
  /\ (strictly_increasing th ->
      forall level, exists score, determineRiskLevel this score = level).
Proof.
  cbv zeta. unfold determineRiskLevel.
  set (th := riskThresholds (config this)).
  assert (Hmono : forall score (lo hi : Q),
             (lo <= hi)%Q -> num_ge score (Fin hi) = true ->
             num_ge score (Fin lo) = true).
  { intros [q| | |] lo hi Hle; try discriminate; try reflexivity.
    rewrite !num_ge_Fin. lra. }
  split; [|split].
  - intros Hle score.
    destruct (num_ge score (Fin (riskThresholds.critical th))) eqn:Hc;
      [discriminate|].
    destruct (num_ge score (Fin (riskThresholds.high th))) eqn:Hh.
    + now rewrite (Hmono _ _ _ Hle Hh) in Hc.
    + now destruct (num_ge score (Fin (riskThresholds.medium th))).
  - intros Hle score.
    destruct (num_ge score (Fin (riskThresholds.critical th))) eqn:Hc;
      [discriminate|].
    destruct (num_ge score (Fin (riskThresholds.high th))) eqn:Hh;
      [discriminate|].
    destruct (num_ge score (Fin (riskThresholds.medium th))) eqn:Hm;
      [|discriminate].
    destruct Hle as [Hle|Hle].
    + now rewrite (Hmono _ _ _ Hle Hm) in Hh.
    + now rewrite (Hmono _ _ _ Hle Hm) in Hc.
  - intros (Hlm & Hmh & Hhc) level.
    destruct level.
    + exists NInf. reflexivity.
    + exists (Fin (riskThresholds.medium th)).
      rewrite !(proj2 (num_ge_Fin_false _ _)) by lra.
      now rewrite (proj2 (num_ge_Fin _ _)) by lra.
    + exists (Fin (riskThresholds.high th)).
      rewrite (proj2 (num_ge_Fin_false _ _)) by lra.
      now rewrite (proj2 (num_ge_Fin _ _)) by lra.
    + exists PInf. reflexivity.
Qed.

End Coverage.

(** ** The configuration *)


(** ** The further properties at concrete inputs *)

Lemma analyzeLogin_users_independent_witness :
  userId Sample.alice_first <> userId Sample.carol_failure
  /\ fst (Sample.analyze
            (snd (Sample.analyze Sample.fresh Sample.carol_failure))
            Sample.alice_first)
     = fst (Sample.analyze Sample.fresh Sample.alice_first).
Proof.
  assert (Hne : userId Sample.alice_first <> userId Sample.carol_failure)
    by (vm_compute; discriminate).
  split; [exact Hne|].
  exact (proj1 (analyzeLogin_users_independent
                  Sample.geoip Sample.distance Sample.utc Sample.fresh
                  Sample.alice_first Sample.carol_failure Hne)).
Defined.

Lemma known_location_scores_zero_witness :
  (getLocationFromIP Sample.geoip (ipAddress Sample.alice_first)
   = Some Sample.inNewYork
   /\ locationKey Sample.inNewYork = locationKey Sample.inNewYork
   /\ userId Sample.alice_first = userId Sample.alice_first)
  /\ locationChange
       (factors
          (fst (Sample.analyze
                  (snd (analyzeMultiple
                          Sample.geoip Sample.distance Sample.utc
                          (snd (Sample.analyze Sample.fresh
                                               Sample.alice_first))
                          [Sample.alice_in_chicago; Sample.carol_failure]))
                  Sample.alice_first)))
     = Fin 0.
Proof.
  assert (Hloc : getLocationFromIP Sample.geoip
                   (ipAddress Sample.alice_first)
                 = Some Sample.inNewYork) by (vm_compute; reflexivity).
  split; [repeat split; exact Hloc|].
  exact (known_location_scores_zero
           Sample.geoip Sample.distance Sample.utc Sample.fresh
           Sample.alice_first Sample.alice_first
           [Sample.alice_in_chicago; Sample.carol_failure]
           Sample.inNewYork Sample.inNewYork Hloc Hloc eq_refl eq_refl).
Defined.

Lemma successful_attempt_impossibleTravel_zero_witness :
  success Sample.dana_at_three = true
  /\ impossibleTravel
       (factors (fst (Sample.analyze Sample.after_dana_logins
                                     Sample.dana_at_three)))
     = Fin 0.
Proof.
  split; [reflexivity|].
  exact (successful_attempt_impossibleTravel_zero
           Sample.geoip Sample.distance Sample.utc
           Sample.after_dana_logins Sample.dana_at_three eq_refl).
Defined.

Lemma successful_attempt_is_low_witness :
  (success Sample.dana_at_three = true
   /\ (0 < bruteForceThreshold (config Sample.after_dana_logins))%Q
   /\ riskThresholds (config Sample.after_dana_logins)
      = riskThresholds defaultConfig)
  /\ riskLevel (fst (Sample.analyze Sample.after_dana_logins
                                    Sample.dana_at_three))
     = low.
Proof.
  assert (Hthreshold :
            (0 < bruteForceThreshold (config Sample.after_dana_logins))%Q)
    by (vm_compute; reflexivity).
  assert (Hlevels : riskThresholds (config Sample.after_dana_logins)
                    = riskThresholds defaultConfig)
    by (vm_compute; reflexivity).
  split; [repeat split; assumption|].
  exact (proj2 (successful_attempt_is_low
                  Sample.geoip Sample.distance Sample.utc
                  Sample.after_dana_logins Sample.dana_at_three
                  eq_refl Hthreshold Hlevels)).
Defined.

Lemma no_attempt_is_critical_witness :
  ((0 <= maxTravelSpeed (config Sample.after_alice_first))%Q
   /\ (0 < bruteForceThreshold (config Sample.after_alice_first))%Q
   /\ riskThresholds (config Sample.after_alice_first)
      = riskThresholds defaultConfig)
  /\ riskLevel (fst (Sample.analyze Sample.after_alice_first
                                    Sample.alice_in_chicago))
     <> critical.
Proof.
  assert (Hspeed : (0 <= maxTravelSpeed (config Sample.after_alice_first))%Q)
    by (vm_compute; discriminate).
  assert (Hthreshold :
            (0 < bruteForceThreshold (config Sample.after_alice_first))%Q)
    by (vm_compute; reflexivity).
  assert (Hlevels : riskThresholds (config Sample.after_alice_first)
                    = riskThresholds defaultConfig)
    by (vm_compute; reflexivity).
  split; [repeat split; assumption|].
  exact (proj2 (no_attempt_is_critical
                  Sample.geoip Sample.distance Sample.utc
                  Sample.after_alice_first Sample.alice_in_chicago
                  Hspeed Hthreshold Hlevels)).
Defined.

Lemma calculateBruteForceRisk_monotone_witness :
  ((0 < bruteForceThreshold (config Sample.fresh))%Q
   /\ (length (getFailedAttemptsInWindow
                 (failedAttempts (emptyProfile "carol"))
                 (timestamp Sample.carol_late)
                 (bruteForceWindow (config Sample.fresh)))
       <= length (getFailedAttemptsInWindow
                    (failedAttempts
                       (profileOf Sample.after_carol_failures "carol"))
                    (timestamp Sample.carol_late)
                    (bruteForceWindow (config Sample.fresh))))%nat)
  /\ num_le
       (calculateBruteForceRisk Sample.fresh Sample.carol_late
                                (emptyProfile "carol"))
       (calculateBruteForceRisk Sample.fresh Sample.carol_late
                                (profileOf Sample.after_carol_failures "carol"))
     = true.
Proof.
  assert (Hthreshold : (0 < bruteForceThreshold (config Sample.fresh))%Q)
    by (vm_compute; reflexivity).
  assert (Hcount :
            (length (getFailedAttemptsInWindow
                       (failedAttempts (emptyProfile "carol"))
                       (timestamp Sample.carol_late)
                       (bruteForceWindow (config Sample.fresh)))
             <= length (getFailedAttemptsInWindow
                          (failedAttempts
                             (profileOf Sample.after_carol_failures "carol"))
                          (timestamp Sample.carol_late)
                          (bruteForceWindow (config Sample.fresh))))%nat)
    by (vm_compute; lia).
  split; [split; assumption|].
  exact (proj1 (calculateBruteForceRisk_monotone
                  Sample.fresh Sample.carol_late (emptyProfile "carol")
                  (profileOf Sample.after_carol_failures "carol")
                  Hthreshold Hcount)).
Defined.


Lemma calculateOverallRisk_monotone_witness :
  ((0 <= 40)%Q /\ (0 <= 100)%Q /\ (40 <= 70)%Q /\ (0 <= 35)%Q)
  /\ num_le
       (calculateOverallRisk
          {| locationChange := Fin 0; impossibleTravel := Fin 0;
             bruteForce := Fin 40; unusualTime := Fin 0 |})
       (calculateOverallRisk
          {| locationChange := Fin 40; impossibleTravel := Fin 100;
             bruteForce := Fin 70; unusualTime := Fin 35 |})
     = true.
Proof.
  assert (Ha : (0 <= 40)%Q) by (vm_compute; discriminate).
  assert (Hb : (0 <= 100)%Q) by (vm_compute; discriminate).
  assert (Hc : (40 <= 70)%Q) by (vm_compute; discriminate).
  assert (Hd : (0 <= 35)%Q) by (vm_compute; discriminate).
  split; [repeat split; assumption|].
  exact (calculateOverallRisk_monotone 0 0 40 0 40 100 70 35 Ha Hb Hc Hd).
Defined.

Lemma zero_threshold_gives_NaN_witness :
  ((bruteForceThreshold (config Sample.zero_threshold) == 0)%Q
   /\ getFailedAttemptsInWindow
        (failuresOnRecord (profileOf Sample.zero_threshold "alice")
                          Sample.alice_first)
        (timestamp Sample.alice_first)
        (bruteForceWindow (config Sample.zero_threshold)) = [])
  /\ overallRisk (fst (Sample.analyze Sample.zero_threshold
                                      Sample.alice_first)) = NaN.
Proof.
  assert (Hzero : (bruteForceThreshold (config Sample.zero_threshold) == 0)%Q)
    by (vm_compute; reflexivity).
  assert (Hnone : getFailedAttemptsInWindow
                    (failuresOnRecord
                       (profileOf Sample.zero_threshold "alice")
                       Sample.alice_first)
                    (timestamp Sample.alice_first)
                    (bruteForceWindow (config Sample.zero_threshold)) = [])
    by (vm_compute; reflexivity).
  split; [split; assumption|].
  exact (proj1 (proj2 (zero_threshold_gives_NaN
                         Sample.geoip Sample.distance Sample.utc
                         Sample.zero_threshold Sample.alice_first
                         Hzero Hnone))).
Defined.

Lemma analyzeLogins_any_order_witness :
  (Permutation [Sample.alice_first; Sample.alice_in_chicago]
               [Sample.alice_in_chicago; Sample.alice_first]
   /\ List.NoDup (map timestamp
                      [Sample.alice_first; Sample.alice_in_chicago]))
  /\ analyzeLogins Sample.geoip Sample.distance Sample.utc
                   (newLogAnalyzer) 0
                   [Sample.alice_first; Sample.alice_in_chicago]
     = analyzeLogins Sample.geoip Sample.distance Sample.utc
                     (newLogAnalyzer) 0
                     [Sample.alice_in_chicago; Sample.alice_first].
Proof.
  assert (Hperm : Permutation [Sample.alice_first; Sample.alice_in_chicago]
                              [Sample.alice_in_chicago; Sample.alice_first])
    by apply perm_swap.
  assert (Hdistinct : List.NoDup
                        (map timestamp
                             [Sample.alice_first; Sample.alice_in_chicago])).
  { vm_compute. constructor; [intros [H|[]]; discriminate H|].
    constructor; [intros []|constructor]. }
  split; [split; assumption|].
  exact (proj2 (analyzeLogins_any_order
                  Sample.geoip Sample.distance Sample.utc newLogAnalyzer 0
                  [Sample.alice_first; Sample.alice_in_chicago]
                  [Sample.alice_in_chicago; Sample.alice_first]
                  Hperm Hdistinct)).
Defined.

Lemma analyzeLogins_suspicious_are_failures_witness :
  ((0 <= maxTravelSpeed (config newLogAnalyzer))%Q
   /\ (0 < bruteForceThreshold (config newLogAnalyzer))%Q
   /\ riskThresholds (config newLogAnalyzer) = riskThresholds defaultConfig)
  /\ (suspiciousLogins
        (fst (analyzeLogins Sample.geoip Sample.distance Sample.utc
                            newLogAnalyzer 0
                            [Sample.alice_in_chicago; Sample.alice_first]))
      <= length (failuresOf [Sample.alice_in_chicago; Sample.alice_first]))%nat.
Proof.
  assert (Hspeed : (0 <= maxTravelSpeed (config newLogAnalyzer))%Q)
    by (vm_compute; discriminate).
  assert (Hthreshold : (0 < bruteForceThreshold (config newLogAnalyzer))%Q)
    by (vm_compute; reflexivity).
  assert (Hlevels : riskThresholds (config newLogAnalyzer)
                    = riskThresholds defaultConfig) by reflexivity.
  split; [repeat split; assumption|].
  exact (proj2 (analyzeLogins_suspicious_are_failures
                  Sample.geoip Sample.distance Sample.utc newLogAnalyzer 0
                  [Sample.alice_in_chicago; Sample.alice_first]
                  Hspeed Hthreshold Hlevels)).
Defined.

Lemma loadProfiles_restores_witness :
  keyedByUserId Sample.after_alice_first
  /\ loadProfiles {| config := config Sample.after_alice_first;
                     userProfiles := ∅ |}
                  (map snd (map_to_list
                              (userProfiles Sample.after_alice_first)))
     = Sample.after_alice_first.
Proof.
  assert (Hkeyed : keyedByUserId Sample.after_alice_first).
  { intros uid p Hp.
    destruct (String.eqb_spec uid "alice") as [->|Hne].
    - vm_compute in Hp. injection Hp as <-. reflexivity.
    - exfalso. revert Hp.
      change (userProfiles Sample.after_alice_first)
        with (userProfiles
                (snd (analyzeLogin Sample.geoip Sample.distance Sample.utc
                                   Sample.fresh Sample.alice_first))).
      rewrite analyzeLogin_other_profile by exact Hne.
      vm_compute. discriminate. }
  split; [exact Hkeyed|].
  exact (proj1 (loadProfiles_restores
                  Sample.geoip Sample.distance Sample.utc
                  Sample.after_alice_first Hkeyed)).
Defined.
